(** * Monzo-Viewer: the request handlers of [monzo_viewer/app.py]

    A shallow embedding of the Flask view functions of the viewer.  The
    handlers are written in a small state-and-exception monad: the state is
    the module-level credential handler [MONZO_HANDLER] together with the
    trace of calls made into the Monzo library and of writes to the
    credential store; an exception is one of the
    Monzo library's errors, Werkzeug's missing-form-key error or a JSON
    decoding error.  Everything that lives outside the application (the
    Monzo library, [json.loads]/[json.dumps], the clock) is gathered in one
    record of oracles, [Library], over which the development is
    parameterised. *)

From Stdlib Require Import ZArith Ascii String.
From stdpp Require Import base option strings gmap list.

Open Scope string_scope.
Open Scope Z_scope.

(** ** HTML escaping

    [flask.escape] is [markupsafe.escape]: on a plain [str] it replaces the
    five characters [&], [>], [<], ['] and the double quote by their
    entities.  The chained [str.replace] calls of the library act on every
    character independently, which is how it is written here. *)

Definition double_quote : ascii := "034"%char.

Definition escape_char (c : ascii) : string :=
  if Ascii.eqb c "&" then "&amp;"
  else if Ascii.eqb c ">" then "&gt;"
  else if Ascii.eqb c "<" then "&lt;"
  else if Ascii.eqb c "'" then "&#39;"
  else if Ascii.eqb c double_quote then "&#34;"
  else String c "".

Fixpoint escape (s : string) : string :=
  match s with
  | "" => ""
  | String c rest => escape_char c ++ escape rest
  end.

(** Python truthiness of a [str]: the empty string is falsy. *)
Definition truthy (s : string) : bool :=
  match s with
  | "" => false
  | _ => true
  end.

(** [not len(s)] *)
Definition not_len (s : string) : bool := Nat.eqb (String.length s) 0.

(** ** Data model *)

(** An account as the viewer sees it: [account_type] is the value of the
    library's [Account.account_type()] method. *)
Record Account := {
  account_id : string;
  account_type : string;
}.

Record Transaction := {
  transaction_id : string;
  transaction_account : string;
  amount : Z;
}.

(** Decoded JSON, the payload of raw requests. *)
#[warnings="-register-all"]
Inductive json :=
| JNull
| JBool (b : bool)
| JNum (n : Z)
| JStr (s : string)
| JArr (items : list json)
| JObj (fields : list (string * json)).

(** The value of [request.form.get(key, default)] where the default is a
    one-element list ([['/']], [['get']]): a string when the field is
    present, the list otherwise. *)
Inductive form_value :=
| PyStr (s : string)
| PyList (l : list string).

(** [datetime] values as microseconds on the clock's own axis;
    [timedelta(days=d)] is a number of microseconds. *)
Definition timedelta_days (d : Z) : Z := d * 86400 * 1000000.

Definition REDIRECT_URL : string := "http://127.0.0.1:5000/setup/callback".

Definition LINKS : list (string * string) :=
  [("Accounts", "/accounts"); ("Feed Item", "/feed_item"); ("Raw Request", "/raw_request")].

Module FileSystem.

(** Modelled from the spec: [monzo_viewer.misc.FileSystem], the credential
    store behind [MONZO_HANDLER], is not among the sources.  The spec gives
    its data (client id and secret, access token, refresh token, expiry),
    [isConfigured] (true iff client id and client secret are both present)
    and field-level update on save. *)
Record t := {
  client_id : string;
  client_secret : string;
  access_token : option string;
  refresh_token : option string;
  expiry : option Z;
}.

(** Modelled from the spec: [isConfigured() -> bool], true iff client id
    and client secret are both present. *)
Definition is_configured (h : t) : bool :=
  truthy (client_id h) && truthy (client_secret h).

(** Modelled from the spec: [set_client_details] saves the two client
    fields and leaves the tokens as they are. *)
Definition set_client_details (cid csecret : string) (h : t) : t :=
  {| client_id := cid;
     client_secret := csecret;
     access_token := access_token h;
     refresh_token := refresh_token h;
     expiry := expiry h |}.

Definition empty : t :=
  {| client_id := ""; client_secret := ""; access_token := None;
     refresh_token := None; expiry := None |}.

End FileSystem.

Module Authentication.

(** The arguments the viewer hands to the library's [Authentication]
    constructor; [None] is an argument left at the library's default. *)
Record t := {
  access_token : option string;
  access_token_expiry : option Z;
  client_id : string;
  client_secret : string;
  redirect_url : string;
  refresh_token : option string;
}.

End Authentication.

(** ** Exceptions *)

Inductive MonzoError :=
| MonzoAuthenticationError
| MonzoHTTPError
| MonzoPermissionsError
| MonzoServerError.

Inductive exn :=
| Monzo (e : MonzoError)
| BadRequestKeyError (key : string)
| JSONDecodeError (doc : string).

Inductive Outcome (A : Type) :=
| Ok (a : A)
| Raise (e : exn).
Arguments Ok {A} a.
Arguments Raise {A} e.

(** ** Requests and responses *)

Inductive HttpMethod := GET | HEAD | POST.

Definition is_GET (m : HttpMethod) : bool :=
  match m with
  | GET => true
  | _ => false
  end.

Record Request := {
  method : HttpMethod;
  form : gmap string string;
  args : gmap string string;
}.

Inductive ContextValue :=
| CStr (s : string)
| CLinks (links : list (string * string))
| CAccounts (accounts : list Account)
| CTransactions (transactions : list Transaction).

Inductive Response :=
| Render (template_name : string) (context : gmap string ContextValue)
| Redirect (location : string).

(** ** Calls into the Monzo library and the credential store *)

Inductive Event :=
| EvSetClientDetails (client_id client_secret : string)
| EvAuthentication (auth : Authentication.t)
| EvAccountFetch (auth : Authentication.t)
| EvFeedItemCreate (auth : Authentication.t) (account_id feed_type : string)
    (params : gmap string string) (url : option string)
| EvTransactionFetch (auth : Authentication.t) (account_id : string)
    (since : Z) (expand : list string)
| EvMakeRequest (auth : Authentication.t) (path : form_value)
    (authenticated : bool) (method : form_value) (data headers : json)
| EvAuthenticate (auth : Authentication.t)
    (authorization_token state_token : string).

(** A call that reaches the provider (constructing an [Authentication]
    object does not). *)
Definition is_provider_call (ev : Event) : bool :=
  match ev with
  | EvSetClientDetails _ _ | EvAuthentication _ => false
  | EvAccountFetch _ | EvFeedItemCreate _ _ _ _ _ | EvTransactionFetch _ _ _ _
  | EvMakeRequest _ _ _ _ _ _ | EvAuthenticate _ _ _ => true
  end.

Definition is_authentication_use (ev : Event) : bool :=
  match ev with
  | EvAuthentication _ | EvAuthenticate _ _ _ => true
  | _ => false
  end.

(** What the application does not implement.  Every library call gets the
    authentication object and the current content of the registered
    callback handler, and gives back its result together with the handler
    as the library leaves it (a token refresh stores new tokens through the
    callback). *)
Record Library := {
  loads : string -> option json;
  dumps : json -> string;
  now : Z;
  authentication_url : Authentication.t -> string;
  account_fetch :
    Authentication.t -> FileSystem.t -> Outcome (list Account) * FileSystem.t;
  feed_item_create :
    Authentication.t -> string -> string -> gmap string string -> option string ->
    FileSystem.t -> Outcome unit * FileSystem.t;
  transaction_fetch :
    Authentication.t -> string -> Z -> list string ->
    FileSystem.t -> Outcome (list Transaction) * FileSystem.t;
  make_request :
    Authentication.t -> form_value -> bool -> form_value -> json -> json ->
    FileSystem.t -> Outcome json * FileSystem.t;
  authenticate :
    Authentication.t -> string -> string ->
    FileSystem.t -> Outcome unit * FileSystem.t;
}.

(** ** The handler monad *)

Record World := {
  MONZO_HANDLER : FileSystem.t;
  trace : list Event;
}.

Definition M (A : Type) : Type := World -> Outcome A * World.

Definition ret {A} (a : A) : M A := fun w => (Ok a, w).

Definition raise {A} (e : exn) : M A := fun w => (Raise e, w).

Definition bind {A B} (m : M A) (k : A -> M B) : M B :=
  fun w =>
    match m w with
    | (Ok a, w') => k a w'
    | (Raise e, w') => (Raise e, w')
    end.

Notation "x <- m ;; k" := (bind m (fun x => k))
  (at level 100, m at next level, right associativity).
Notation "m ;;; k" := (bind m (fun _ => k))
  (at level 100, right associativity).

(** [try: m except: h]: the clauses [h] name the exceptions they catch;
    what the body did to the world before raising stays done. *)
Definition try_except {A} (m : M A) (h : exn -> option (M A)) : M A :=
  fun w =>
    match m w with
    | (Ok a, w') => (Ok a, w')
    | (Raise e, w') =>
        match h e with
        | Some k => k w'
        | None => (Raise e, w')
        end
    end.

Definition get_handler : M FileSystem.t := fun w => (Ok (MONZO_HANDLER w), w).

(** [MONZO_HANDLER.set_client_details(client_id=..., client_secret=...)] *)
Definition set_client_details (client_id client_secret : string) : M unit :=
  fun w =>
    (Ok tt,
     {| MONZO_HANDLER :=
          FileSystem.set_client_details client_id client_secret (MONZO_HANDLER w);
        trace := trace w ++ [EvSetClientDetails client_id client_secret] |}).

Definition emit (ev : Event) : M unit :=
  fun w => (Ok tt, {| MONZO_HANDLER := MONZO_HANDLER w; trace := trace w ++ [ev] |}).

(** A library call: recorded in the trace, answered by the oracle. *)
Definition library_call {A} (ev : Event)
    (f : FileSystem.t -> Outcome A * FileSystem.t) : M A :=
  fun w =>
    let '(r, h) := f (MONZO_HANDLER w) in
    (r, {| MONZO_HANDLER := h; trace := trace w ++ [ev] |}).

(** [request.form[key]]: Werkzeug raises [BadRequestKeyError] on a missing
    key. *)
Definition form_item (request : Request) (key : string) : M string :=
  match form request !! key with
  | Some v => ret v
  | None => raise (BadRequestKeyError key)
  end.

Definition args_item (request : Request) (key : string) : M string :=
  match args request !! key with
  | Some v => ret v
  | None => raise (BadRequestKeyError key)
  end.

(** [key in request.args] *)
Definition args_has (request : Request) (key : string) : bool :=
  bool_decide (is_Some (args request !! key)).

(** ** The application *)

Section App.

Variable lib : Library.

(** *** Thin wrappers: one per library entry point the viewer uses *)

(** [Authentication(...)] followed by [register_callback_handler]. *)
Definition new_Authentication (auth : Authentication.t) : M Authentication.t :=
  emit (EvAuthentication auth) ;;; ret auth.

Definition Account_fetch (auth : Authentication.t) : M (list Account) :=
  library_call (EvAccountFetch auth) (account_fetch lib auth).

Definition FeedItem_create (auth : Authentication.t) (account_id feed_type : string)
    (params : gmap string string) (url : option string) : M unit :=
  library_call (EvFeedItemCreate auth account_id feed_type params url)
    (feed_item_create lib auth account_id feed_type params url).

Definition Transaction_fetch (auth : Authentication.t) (account_id : string)
    (since : Z) (expand : list string) : M (list Transaction) :=
  library_call (EvTransactionFetch auth account_id since expand)
    (transaction_fetch lib auth account_id since expand).

Definition auth_make_request (auth : Authentication.t) (path : form_value)
    (authenticated : bool) (method : form_value) (data headers : json) : M json :=
  library_call (EvMakeRequest auth path authenticated method data headers)
    (make_request lib auth path authenticated method data headers).

Definition auth_authenticate (auth : Authentication.t)
    (authorization_token state_token : string) : M unit :=
  library_call (EvAuthenticate auth authorization_token state_token)
    (authenticate lib auth authorization_token state_token).

(** [json.loads]: a [JSONDecodeError] on text that is not JSON. *)
Definition json_loads (doc : string) : M json :=
  match loads lib doc with
  | Some v => ret v
  | None => raise (JSONDecodeError doc)
  end.

(** *** [auth_setup] *)

(** [not x] for an optional string argument: [None] and [''] are falsy. *)
Definition falsy_arg (x : option string) : bool :=
  match x with
  | None => true
  | Some s => negb (truthy s)
  end.

Definition auth_setup (client_id client_secret : option string)
    : M Authentication.t :=
  h <- get_handler ;;
  let client_id :=
    if falsy_arg client_id then FileSystem.client_id h
    else default "" client_id in
  let client_secret :=
    if falsy_arg client_secret then FileSystem.client_secret h
    else default "" client_secret in
  new_Authentication
    {| Authentication.access_token := FileSystem.access_token h;
       Authentication.access_token_expiry := FileSystem.expiry h;
       Authentication.client_id := client_id;
       Authentication.client_secret := client_secret;
       Authentication.redirect_url := REDIRECT_URL;
       Authentication.refresh_token := FileSystem.refresh_token h |}.

(** The object [auth_setup()] builds from what the handler holds. *)
Definition stored_auth (h : FileSystem.t) : Authentication.t :=
  {| Authentication.access_token := FileSystem.access_token h;
     Authentication.access_token_expiry := FileSystem.expiry h;
     Authentication.client_id := FileSystem.client_id h;
     Authentication.client_secret := FileSystem.client_secret h;
     Authentication.redirect_url := REDIRECT_URL;
     Authentication.refresh_token := FileSystem.refresh_token h |}.

(** *** [fetch_accounts] *)

Definition not_shown_types : list string := ["Loan (Flex)"; "Loan"].

(** The body of the [for account in account_list] loop. *)
Definition select_account (selected_accounts : list Account) (account : Account)
    : list Account :=
  if bool_decide (account_type account ∉ not_shown_types)
  then selected_accounts ++ [account]
  else selected_accounts.

Definition fetch_accounts (auth : Authentication.t) (all_accounts : bool)
    : M (list Account) :=
  account_list <- Account_fetch auth ;;
  let selected_accounts := [] in
  ret (if negb all_accounts
       then foldl select_account selected_accounts account_list
       else account_list).

(** *** [get_raw_request] *)

Definition get_raw_request (auth : Authentication.t) (path : form_value)
    (authenticated : bool) (request_type : form_value)
    (headers parameters : json) : M json :=
  try_except
    (auth_make_request auth path authenticated request_type parameters headers)
    (fun e =>
       match e with
       | Monzo MonzoPermissionsError =>
           Some (ret (JObj [("message", JStr "The request resulted in a permissions error.")]))
       | Monzo MonzoHTTPError =>
           Some (ret (JObj [("message", JStr "The request appears invalid.")]))
       | _ => None
       end).

(** *** The view functions *)

Definition index (request : Request) : M Response :=
  h <- get_handler ;;
  if negb (FileSystem.is_configured h) then ret (Redirect "/setup/")
  else ret (Render "index.html" {[ "links" := CLinks LINKS ]}).

Definition accounts (request : Request) : M Response :=
  h <- get_handler ;;
  if negb (FileSystem.is_configured h) then ret (Redirect "/setup/")
  else
    auth <- auth_setup None None ;;
    fetched <-
      try_except
        (account_list <- fetch_accounts auth true ;; ret (inr account_list))
        (fun e =>
           match e with
           | Monzo MonzoPermissionsError =>
               Some (ret (inl (Render "error.html"
                 {[ "error" := CStr "The request resulted in a permissions error." ]})))
           | _ => None
           end) ;;
    match fetched with
    | inl error_page => ret error_page
    | inr account_list =>
        ret (Render "accounts.html" {[ "accounts" := CAccounts account_list ]})
    end.

Definition optional_parameters : list string :=
  ["body"; "title_color"; "body_color"; "background_color"; "image_url"].

(** The body of the [for optional_parameter in optional_parameters] loop. *)
Definition add_optional (request : Request) (parameters : gmap string string)
    (optional_parameter : string) : gmap string string :=
  match form request !! optional_parameter with
  | Some v => <[optional_parameter := escape v]> parameters
  | None => parameters
  end.

(** The [parameters] dictionary of the feed item: the title and the
    optional fields that were submitted. *)
Definition feed_parameters (request : Request) (title : string)
    : gmap string string :=
  let parameters : gmap string string := {[ "title" := escape title ]} in
  foldl (add_optional request) parameters optional_parameters.

Definition feed_iten (request : Request) : M Response :=
  auth <- auth_setup None None ;;
  account_list <- fetch_accounts auth false ;;
  let context : gmap string ContextValue :=
    {[ "accounts" := CAccounts account_list ]} in
  if is_GET (method request) then ret (Render "feed_item_form.html" context)
  else
    title <- form_item request "title" ;;
    let parameters := feed_parameters request title in
    account_field <- form_item request "account" ;;
    let account := escape account_field in
    let feed_item_url := escape <$> (form request !! "feed_item_url") in
    auth <- auth_setup None None ;;
    rendered <-
      try_except
        (FeedItem_create auth account "basic" parameters feed_item_url ;;;
         ret ("message.html",
              <["message" := CStr "Feed item posted successfully."]> context))
        (fun e =>
           match e with
           | Monzo MonzoHTTPError =>
               Some (ret ("error.html",
                 <["message" := CStr "The Monzo API did not understand the request."]> context))
           | Monzo MonzoPermissionsError =>
               Some (ret ("error.html",
                 <["message" := CStr "The request resulted in a permissions error."]> context))
           | _ => None
           end) ;;
    let '(template_name, context) := rendered in
    ret (Render template_name context).

Definition no_account_specified : Response :=
  Render "error.html" {[ "message" := CStr "No account specified." ]}.

Definition transactions_permissions_message : string :=
  "The API returned a permissions issue. Either the token has expired or the account cannot return "
  ++ "transactions.".

Definition transactions_for_account (request : Request) : M Response :=
  match form request !! "account" with
  | Some account_field =>
      if truthy (escape account_field) then
        let account := escape account_field in
        if String.eqb account "Please Select" then ret no_account_specified
        else
          auth <- auth_setup None None ;;
          let thirty_days_ago := now lib - timedelta_days 30 in
          try_except
            (transactions <-
               Transaction_fetch auth account thirty_days_ago ["merchant"] ;;
             ret (Render "transactions.html"
                    {[ "transactions" := CTransactions transactions ]}))
            (fun e =>
               match e with
               | Monzo MonzoPermissionsError =>
                   Some (ret (Render "error.html"
                     {[ "message" := CStr transactions_permissions_message ]}))
               | _ => None
               end)
      else ret no_account_specified
  | None => ret no_account_specified
  end.

(** [request.form.get(key, [d])] *)
Definition form_get_or_list (request : Request) (key d : string) : form_value :=
  match form request !! key with
  | Some v => PyStr v
  | None => PyList [d]
  end.

Definition raw_request (request : Request) : M Response :=
  let context : gmap string ContextValue := ∅ in
  auth <- auth_setup None None ;;
  if is_GET (method request) then ret (Render "raw_request.html" context)
  else
    let authenticated :=
      match form request !! "authenticated" with
      | Some v => truthy v
      | None => true
      end in
    let request_type := form_get_or_list request "authenticated" "get" in
    headers <-
      match form request !! "headers" with
      | Some v => json_loads v
      | None => ret (JObj [])
      end ;;
    monzo_parameters <-
      match form request !! "parameters" with
      | Some v => if truthy v then json_loads v else ret (JObj [])
      | None => ret (JObj [])
      end ;;
    records <-
      get_raw_request auth (form_get_or_list request "path" "/")
        authenticated request_type headers monzo_parameters ;;
    ret (Render "raw_request_result.html"
           (<["records" := CStr (dumps lib records)]> context)).

Definition setup_validation_message : string :=
  "Ensure you enter both a Client ID and a Client Secret.".

Definition setup (request : Request) : M Response :=
  let context : gmap string ContextValue :=
    {[ "REDIRECT_URL" := CStr REDIRECT_URL ]} in
  if is_GET (method request) then ret (Render "setup.html" context)
  else
    client_id_field <- form_item request "client_id" ;;
    let context := <["CLIENT_ID_VALUE" := CStr (escape client_id_field)]> context in
    client_secret_field <- form_item request "client_secret" ;;
    let context := <["CLIENT_SECRET_VALUE" := CStr (escape client_secret_field)]> context in
    if not_len (escape client_id_field) || not_len (escape client_secret_field)
    then
      ret (Render "setup.html" (<["message" := CStr setup_validation_message]> context))
    else
      set_client_details (escape client_id_field) (escape client_secret_field) ;;;
      h <- get_handler ;;
      auth <- auth_setup (Some (FileSystem.client_id h))
                         (Some (FileSystem.client_secret h)) ;;
      ret (Redirect (authentication_url lib auth)).

Definition setup_callback (request : Request) : M Response :=
  let context : gmap string ContextValue := ∅ in
  if args_has request "code" && args_has request "state" then
    code <- args_item request "code" ;;
    state <- args_item request "state" ;;
    h <- get_handler ;;
    auth <- new_Authentication
      {| Authentication.access_token := None;
         Authentication.access_token_expiry := None;
         Authentication.client_id := FileSystem.client_id h;
         Authentication.client_secret := FileSystem.client_secret h;
         Authentication.redirect_url := REDIRECT_URL;
         Authentication.refresh_token := None |} ;;
    exchanged <-
      try_except
        (auth_authenticate auth code state ;;;
         ret (inl (Render "success.html" ∅)))
        (fun e =>
           match e with
           | Monzo MonzoAuthenticationError =>
               Some (ret (inr (<["message" := CStr "Monzo authentication error."]> context)))
           | Monzo MonzoServerError =>
               Some (ret (inr (<["message" := CStr "Monzo server error."]> context)))
           | _ => None
           end) ;;
    match exchanged with
    | inl success_page => ret success_page
    | inr context => ret (Render "error.html" context)
    end
  else
    ret (Render "error.html" (<["message" := CStr "Missing parameters."]> context)).

End App.

(** ** Reading a run

    The definitions the properties are stated with. *)

(** A text in which no entity can start. *)
Fixpoint no_ampersand (s : string) : bool :=
  match s with
  | "" => true
  | String c rest => negb (Ascii.eqb c "&") && no_ampersand rest
  end.

(** The accounts [fetch_accounts] keeps when not asked for all of them. *)
Definition shows_transactions (account : Account) : Prop :=
  account_type account ≠ "Loan (Flex)" ∧ account_type account ≠ "Loan".

#[local] Instance shows_transactions_dec (account : Account) :
  Decision (shows_transactions account).
Proof. unfold shows_transactions. apply _. Defined.

(** A computation only ever appends to the trace it starts with. *)
Definition extends_trace {A} (m : M A) : Prop :=
  ∀ w, ∃ calls, trace (snd (m w)) = (trace w ++ calls)%list.

(** The library calls a computation adds to the trace of the world it
    starts in. *)
Definition calls_made {A} (m : M A) (w : World) : list Event :=
  drop (length (trace w)) (trace (snd (m w))).

(** The [headers] and [parameters] fields as the handler decodes them;
    [None] stands for a text [json.loads] rejects. *)
Definition decoded_headers (lib : Library) (request : Request) : option json :=
  match form request !! "headers" with
  | Some v => loads lib v
  | None => Some (JObj [])
  end.

Definition decoded_parameters (lib : Library) (request : Request) : option json :=
  match form request !! "parameters" with
  | Some v => if truthy v then loads lib v else Some (JObj [])
  | None => Some (JObj [])
  end.

Definition authenticated_flag (request : Request) : bool :=
  match form request !! "authenticated" with
  | Some v => truthy v
  | None => true
  end.

(** The form fields [raw_request] reads. *)
Definition raw_request_fields : list string :=
  ["authenticated"; "headers"; "parameters"; "path"].

(** What the handler makes of the answer to [Transaction.fetch]. *)
Definition transactions_view (r : Outcome (list Transaction)) : Outcome Response :=
  match r with
  | Ok transactions =>
      Ok (Render "transactions.html" {[ "transactions" := CTransactions transactions ]})
  | Raise (Monzo MonzoPermissionsError) =>
      Ok (Render "error.html" {[ "message" := CStr transactions_permissions_message ]})
  | Raise e => Raise e
  end.

(** A text free of the five characters [escape] rewrites. *)
Fixpoint html_plain (s : string) : bool :=
  match s with
  | "" => true
  | String c rest => String.eqb (escape_char c) (String c "") && html_plain rest
  end.

(** The context of the re-rendered form. *)
Definition setup_form_context (client_id_field client_secret_field : string)
    : gmap string ContextValue :=
  <["message" := CStr setup_validation_message]>
    (<["CLIENT_SECRET_VALUE" := CStr (escape client_secret_field)]>
       (<["CLIENT_ID_VALUE" := CStr (escape client_id_field)]>
          {[ "REDIRECT_URL" := CStr REDIRECT_URL ]})).

(** What the handler makes of the answer to [FeedItem.create]. *)
Definition feed_view (account_list : list Account) (r : Outcome unit)
    : Outcome Response :=
  let context : gmap string ContextValue := {[ "accounts" := CAccounts account_list ]} in
  match r with
  | Ok _ =>
      Ok (Render "message.html"
            (<["message" := CStr "Feed item posted successfully."]> context))
  | Raise (Monzo MonzoHTTPError) =>
      Ok (Render "error.html"
            (<["message" := CStr "The Monzo API did not understand the request."]> context))
  | Raise (Monzo MonzoPermissionsError) =>
      Ok (Render "error.html"
            (<["message" := CStr "The request resulted in a permissions error."]> context))
  | Raise e => Raise e
  end.

(** ** Kinds of call

    What a handler can leave in the trace, by the entry point used. *)

Inductive EventKind :=
| StoreWrite
| AuthObject
| AccountListing
| FeedPosting
| TransactionListing
| RawCall
| CodeExchange.

Definition event_kind (ev : Event) : EventKind :=
  match ev with
  | EvSetClientDetails _ _ => StoreWrite
  | EvAuthentication _ => AuthObject
  | EvAccountFetch _ => AccountListing
  | EvFeedItemCreate _ _ _ _ _ => FeedPosting
  | EvTransactionFetch _ _ _ _ => TransactionListing
  | EvMakeRequest _ _ _ _ _ _ => RawCall
  | EvAuthenticate _ _ _ => CodeExchange
  end.

Definition kind_eqb (k k' : EventKind) : bool :=
  match k, k' with
  | StoreWrite, StoreWrite | AuthObject, AuthObject
  | AccountListing, AccountListing | FeedPosting, FeedPosting
  | TransactionListing, TransactionListing | RawCall, RawCall
  | CodeExchange, CodeExchange => true
  | _, _ => false
  end.

(** The event is of one of the listed kinds. *)
Definition of_kinds (kinds : list EventKind) (ev : Event) : bool :=
  existsb (kind_eqb (event_kind ev)) kinds.

(** A computation appends to the trace, and only events that pass [P]. *)
Definition calls_only {A} (P : Event → bool) (m : M A) : Prop :=
  ∀ w, ∃ calls,
    trace (snd (m w)) = (trace w ++ calls)%list
    ∧ Forall (λ ev, P ev = true) calls.

(** The four characters that open or close markup or an attribute. *)
Definition is_markup (c : ascii) : bool :=
  Ascii.eqb c "<" || Ascii.eqb c ">" || Ascii.eqb c "'" || Ascii.eqb c double_quote.

Fixpoint markup_free (s : string) : bool :=
  match s with
  | "" => true
  | String c rest => negb (is_markup c) && markup_free rest
  end.

(** What a call hands on of the submitted text carries no markup
    character: the client details written by [setup], the account of a
    transaction fetch, and the account, the URL and every parameter of a
    feed item. *)
Definition carries_no_markup (ev : Event) : bool :=
  match ev with
  | EvSetClientDetails c s => markup_free c && markup_free s
  | EvTransactionFetch _ account _ _ => markup_free account
  | EvFeedItemCreate _ account _ params url =>
      markup_free account
      && from_option markup_free true url
      && bool_decide (map_Forall (λ _ v, markup_free v = true) params)
  | _ => true
  end.

(** ** A scripted library, for running the handlers on concrete requests *)

(** A reader that knows the two texts [{}] and [[]] and rejects everything
    else; on the texts used in the examples below it agrees with
    [json.loads]. *)
Definition loads_empty_containers (doc : string) : option json :=
  if String.eqb doc "{}" then Some (JObj [])
  else if String.eqb doc "[]" then Some (JArr [])
  else None.

Definition dumps_tag (v : json) : string :=
  match v with
  | JNull => "null"
  | JBool true => "true"
  | JBool false => "false"
  | JNum _ => "<number>"
  | JStr s => s
  | JArr _ => "<array>"
  | JObj _ => "<object>"
  end.

(** Every provider call answers with the scripted outcome and leaves the
    handler alone. *)
Definition scripted (listing : Outcome (list Account)) (posting : Outcome unit)
    (history : Outcome (list Transaction)) (raw : Outcome json)
    (exchange : Outcome unit) : Library :=
  {| loads := loads_empty_containers;
     dumps := dumps_tag;
     now := 1700000000000000;
     authentication_url := fun auth =>
       "https://auth.monzo.com/?client_id=" ++ Authentication.client_id auth;
     account_fetch := fun _ h => (listing, h);
     feed_item_create := fun _ _ _ _ _ h => (posting, h);
     transaction_fetch := fun _ _ _ _ h => (history, h);
     make_request := fun _ _ _ _ _ _ h => (raw, h);
     authenticate := fun _ _ _ h => (exchange, h) |}.

Definition current_account : Account :=
  {| account_id := "acc_1"; account_type := "Current Account" |}.
Definition flex_account : Account :=
  {| account_id := "acc_2"; account_type := "Loan (Flex)" |}.
Definition loan_account : Account :=
  {| account_id := "acc_3"; account_type := "Loan" |}.
Definition joint_account : Account :=
  {| account_id := "acc_4"; account_type := "Joint Account" |}.

Definition friendly : Library :=
  scripted (Ok [current_account; flex_account; loan_account; joint_account])
    (Ok tt) (Ok []) (Ok (JObj [])) (Ok tt).

Definition configured_handler : FileSystem.t :=
  {| FileSystem.client_id := "oauth2client_1";
     FileSystem.client_secret := "mnzconf.secret";
     FileSystem.access_token := Some "token";
     FileSystem.refresh_token := None;
     FileSystem.expiry := Some 1700000100000000 |}.

Definition fresh_world : World :=
  {| MONZO_HANDLER := FileSystem.empty; trace := [] |}.

Definition configured_world : World :=
  {| MONZO_HANDLER := configured_handler; trace := [] |}.

Definition post (fields : list (string * string)) : Request :=
  {| method := POST; form := list_to_map fields; args := ∅ |}.

Definition get_with (query : list (string * string)) : Request :=
  {| method := GET; form := ∅; args := list_to_map query |}.

Definition put_request : Request :=
  post [("authenticated", "PUT"); ("path", "/ping/whoami"); ("request_type", "GET")].

Definition bad_headers_request : Request :=
  post [("path", "/accounts"); ("headers", "{not json")].

Definition unauthenticated_request : Request :=
  post [("authenticated", ""); ("path", "/ping/whoami")].

Definition false_text_request : Request :=
  post [("authenticated", "false"); ("path", "/ping/whoami")].

Definition placeholder_request : Request := post [("account", "Please Select")].
Definition account_request : Request := post [("account", "acc_1")].
Definition ampersand_account_request : Request := post [("account", "acc&1")].

Definition empty_secret_request : Request :=
  post [("client_id", "oauth2client_9"); ("client_secret", "")].

Definition empty_id_only_request : Request := post [("client_id", "")].

Definition empty_secret_only_request : Request := post [("client_secret", "")].

Definition credentials_request : Request :=
  post [("client_id", "oauth2client_9"); ("client_secret", "mnzconf.s3cret")].

Definition ampersand_credentials_request : Request :=
  post [("client_id", "id&1"); ("client_secret", "<secret>")].

Definition feed_request : Request :=
  post [("title", "<b>Hi</b>"); ("account", "acc_1"); ("body", "x & y");
        ("feed_item_url", "https://example.org/?a=1&b=2")].


(** Libraries whose provider calls fail. *)
Definition listing_denied : Library :=
  scripted (Raise (Monzo MonzoPermissionsError)) (Ok tt) (Ok []) (Ok (JObj [])) (Ok tt).

Definition calls_denied : Library :=
  scripted (Ok [current_account; flex_account])
    (Raise (Monzo MonzoPermissionsError)) (Raise (Monzo MonzoPermissionsError))
    (Raise (Monzo MonzoPermissionsError)) (Raise (Monzo MonzoServerError)).

Definition calls_rejected : Library :=
  scripted (Ok [current_account; flex_account])
    (Raise (Monzo MonzoHTTPError)) (Raise (Monzo MonzoHTTPError))
    (Raise (Monzo MonzoHTTPError)) (Raise (Monzo MonzoAuthenticationError)).

Definition callback_request : Request :=
  get_with [("code", "abc123"); ("state", "xyz")].

Definition callback_without_state : Request := get_with [("code", "abc123")].

Definition ampersand_account_with_more_request : Request :=
  {| method := POST;
     form := list_to_map [("account", "acc&1"); ("since", "2020-01-01")];
     args := list_to_map [("page", "2")] |}.

Definition title_only_request : Request := post [("title", "Hello")].

Definition head_with_query_request : Request :=
  {| method := HEAD;
     form := list_to_map [("authenticated", "PUT"); ("path", "/ping/whoami");
                          ("comment", "ignored")];
     args := list_to_map [("debug", "1")] |}.

Definition bad_parameters_request : Request :=
  post [("path", "/accounts"); ("headers", "{}"); ("parameters", "{not json")].

Definition empty_parameters_request : Request :=
  post [("path", "/accounts"); ("parameters", "")].

Definition get_with_bad_headers_request : Request :=
  {| method := GET; form := form bad_headers_request; args := ∅ |}.

(** * Properties *)

(** ** Escaping *)

Lemma escape_char_cases (c : ascii) :
  escape_char c = String c "" ∧ c ≠ "&"%char
  ∨ ∃ tail, escape_char c = String "&" tail.
Proof.
  unfold escape_char.
  destruct (Ascii.eqb_spec c "&"); [right; eauto|].
  destruct (Ascii.eqb_spec c ">"); [right; eauto|].
  destruct (Ascii.eqb_spec c "<"); [right; eauto|].
  destruct (Ascii.eqb_spec c "'"); [right; eauto|].
  destruct (Ascii.eqb_spec c double_quote); [right; eauto|].
  left; auto.
Qed.

Lemma escape_empty_iff (s : string) : escape s = "" ↔ s = "".
Proof.
  split; [|intros ->; reflexivity].
  destruct s as [|c rest]; [reflexivity|]. simpl.
  destruct (escape_char_cases c) as [[-> _]|[tail ->]]; discriminate.
Qed.

Lemma truthy_escape (s : string) : truthy (escape s) = truthy s.
Proof.
  destruct s as [|c rest]; [reflexivity|]. simpl.
  destruct (escape_char_cases c) as [[-> _]|[tail ->]]; reflexivity.
Qed.

Lemma not_len_truthy (s : string) : not_len s = negb (truthy s).
Proof. destruct s; reflexivity. Qed.

Lemma truthy_true_iff (s : string) : truthy s = true ↔ s ≠ "".
Proof. destruct s; simpl; split; congruence. Qed.

(** A text without [&] is the escaped form of itself only. *)
Lemma escape_eq_plain (t s : string) :
  no_ampersand t = true → escape s = t → s = t.
Proof.
  revert t. induction s as [|c rest IH]; intros t Ht; simpl.
  - auto.
  - destruct (escape_char_cases c) as [[-> Hc]|[tail ->]]; simpl; intros <-.
    + simpl in Ht. apply andb_prop in Ht as [_ Ht].
      f_equal. now apply IH.
    + simpl in Ht. discriminate.
Qed.

Lemma escape_please_select (s : string) :
  String.eqb (escape s) "Please Select" = String.eqb s "Please Select".
Proof.
  destruct (String.eqb_spec s "Please Select") as [->|Hne].
  - reflexivity.
  - apply String.eqb_neq. intros He. apply Hne.
    now apply escape_eq_plain.
Qed.

Example escape_script :
  escape "<script>alert('x')</script>" = "&lt;script&gt;alert(&#39;x&#39;)&lt;/script&gt;".
Proof. reflexivity. Qed.

Example escape_quote_amp :
  escape (String double_quote "a&b") = "&#34;a&amp;b".
Proof. reflexivity. Qed.

(** ** The monad: how a run threads the world *)

Create HintDb run discriminated.

#[local] Hint Unfold ret raise bind try_except get_handler emit library_call
  set_client_details form_item args_item json_loads new_Authentication
  Account_fetch FeedItem_create Transaction_fetch auth_make_request
  auth_authenticate fetch_accounts get_raw_request : run.

(** Open the monadic operations of a handler that has been unfolded. *)
Ltac run_monad := autounfold with run; cbn beta iota.

(** The wrappers of the application, opened down to the primitives of the
    monad, which stay folded. *)
Ltac run_monad_keep :=
  unfold auth_setup, fetch_accounts, get_raw_request, new_Authentication,
    Account_fetch, FeedItem_create, Transaction_fetch, auth_make_request,
    auth_authenticate, json_loads, form_item, args_item.

Lemma bind_ret_l {A B} (a : A) (k : A → M B) (w : World) :
  bind (ret a) k w = k a w.
Proof. reflexivity. Qed.

Lemma bind_ret_r {A} (m : M A) (w : World) : bind m ret w = m w.
Proof. unfold bind, ret. now destruct (m w) as [[a|e] w']. Qed.

Lemma bind_assoc {A B C} (m : M A) (k : A → M B) (k' : B → M C) (w : World) :
  bind (bind m k) k' w = bind m (λ a, bind (k a) k') w.
Proof. unfold bind. now destruct (m w) as [[a|e] w']. Qed.

(** A raised exception skips the rest of the handler. *)
Lemma bind_raise {A B} (e : exn) (k : A → M B) (w : World) :
  bind (raise e) k w = (Raise e, w).
Proof. reflexivity. Qed.

(** *** Handlers only ever append to the trace *)

Lemma extends_ret {A} (a : A) : extends_trace (ret a).
Proof. intros w. exists []. simpl. now rewrite app_nil_r. Qed.

Lemma extends_raise {A} (e : exn) : extends_trace (@raise A e).
Proof. intros w. exists []. simpl. now rewrite app_nil_r. Qed.

Lemma extends_get_handler : extends_trace get_handler.
Proof. intros w. exists []. simpl. now rewrite app_nil_r. Qed.

Lemma extends_emit (ev : Event) : extends_trace (emit ev).
Proof. intros w. now exists [ev]. Qed.

Lemma extends_set_client_details (c s : string) :
  extends_trace (set_client_details c s).
Proof. intros w. now exists [EvSetClientDetails c s]. Qed.

Lemma extends_library_call {A} (ev : Event)
    (f : FileSystem.t → Outcome A * FileSystem.t) :
  extends_trace (library_call ev f).
Proof.
  intros w. exists [ev]. unfold library_call.
  now destruct (f (MONZO_HANDLER w)).
Qed.

Lemma extends_bind {A B} (m : M A) (k : A → M B) :
  extends_trace m → (∀ a, extends_trace (k a)) → extends_trace (bind m k).
Proof.
  intros Hm Hk w. unfold bind.
  destruct (Hm w) as [calls Hcalls].
  destruct (m w) as [[a|e] w1]; simpl in *.
  - destruct (Hk a w1) as [calls' Hcalls'].
    exists (calls ++ calls')%list. now rewrite Hcalls', Hcalls, app_assoc.
  - now exists calls.
Qed.

Lemma extends_try_except {A} (m : M A) (h : exn → option (M A)) :
  extends_trace m →
  (∀ e k, h e = Some k → extends_trace k) →
  extends_trace (try_except m h).
Proof.
  intros Hm Hh w. unfold try_except.
  destruct (Hm w) as [calls Hcalls].
  destruct (m w) as [[a|e] w1]; simpl in *.
  - now exists calls.
  - destruct (h e) as [k|] eqn:He; simpl.
    + destruct (Hh e k He w1) as [calls' Hcalls'].
      exists (calls ++ calls')%list. now rewrite Hcalls', Hcalls, app_assoc.
    + now exists calls.
Qed.

Create HintDb extends discriminated.

#[local] Hint Resolve extends_ret extends_raise extends_get_handler extends_emit
  extends_set_client_details extends_library_call : extends.

(** Walk through a handler: binds and [try] statements are entered, tests
    are split, and the leaves are the primitive computations above. *)
Ltac extends_step :=
  match goal with
  | |- extends_trace (bind _ _) => apply extends_bind; [|intros ?]
  | |- extends_trace (try_except _ _) =>
      apply extends_try_except;
      [|let e := fresh "e" in let k := fresh "k" in let He := fresh "He" in
        intros e k He;
        repeat match type of He with
               | context [match ?x with _ => _ end] => destruct x
               end;
        try discriminate; injection He as <-]
  | |- extends_trace (match ?x with _ => _ end) => destruct x
  | |- extends_trace (if ?b then _ else _) => destruct b
  | |- extends_trace (let '(_, _) := ?p in _) => destruct p
  | |- extends_trace _ => solve [auto with extends]
  end.

Ltac extends_auto := run_monad_keep; repeat extends_step.

Lemma post_is_not_GET (request : Request) :
  method request = POST → is_GET (method request) = false.
Proof. now intros ->. Qed.

Lemma auth_setup_run (w : World) :
  auth_setup None None w
  = (Ok (stored_auth (MONZO_HANDLER w)),
     {| MONZO_HANDLER := MONZO_HANDLER w;
        trace := (trace w ++ [EvAuthentication (stored_auth (MONZO_HANDLER w))])%list |}).
Proof. reflexivity. Qed.

Theorem handlers_extend_trace (lib : Library) (request : Request) :
  extends_trace (index request)
  ∧ extends_trace (accounts lib request)
  ∧ extends_trace (feed_iten lib request)
  ∧ extends_trace (transactions_for_account lib request)
  ∧ extends_trace (raw_request lib request)
  ∧ extends_trace (setup lib request)
  ∧ extends_trace (setup_callback lib request).
Proof.
  repeat split.
  - unfold index. extends_auto.
  - unfold accounts. extends_auto.
  - unfold feed_iten. extends_auto.
  - unfold transactions_for_account. extends_auto.
  - unfold raw_request. extends_auto.
  - unfold setup. extends_auto.
  - unfold setup_callback. extends_auto.
Qed.

(** What [calls_made] drops is the trace the run started with. *)
Lemma calls_made_spec {A} (m : M A) (w : World) :
  extends_trace m → trace (snd (m w)) = (trace w ++ calls_made m w)%list.
Proof.
  intros Hm. destruct (Hm w) as [calls Hcalls].
  unfold calls_made. rewrite Hcalls. now rewrite drop_app_length.
Qed.

(** ** [fetch_accounts] *)

Lemma select_account_spec (selected : list Account) (account : Account) :
  select_account selected account
  = (selected ++ (if decide (shows_transactions account) then [account] else []))%list.
Proof.
  unfold select_account, not_shown_types, shows_transactions.
  destruct (decide _) as [[H1 H2]|Hn].
  - rewrite bool_decide_eq_true_2; [reflexivity|].
    rewrite !not_elem_of_cons. repeat split; auto. apply not_elem_of_nil.
  - rewrite bool_decide_eq_false_2; [now rewrite app_nil_r|].
    intros Hin. apply Hn. rewrite !not_elem_of_cons in Hin. tauto.
Qed.

Lemma select_loop_filter (account_list selected : list Account) :
  foldl select_account selected account_list
  = (selected ++ filter shows_transactions account_list)%list.
Proof.
  revert selected. induction account_list as [|account rest IH]; intros selected; simpl.
  - now rewrite app_nil_r.
  - rewrite IH, select_account_spec, filter_cons.
    destruct (decide (shows_transactions account)).
    + now rewrite <- app_assoc.
    + now rewrite app_nil_r.
Qed.

(** C1. Whatever list of accounts the provider returns, [fetch_accounts]
    with [all_accounts=False] returns exactly the accounts whose type is
    neither "Loan (Flex)" nor "Loan", in the provider's order, and with
    [all_accounts=True] it returns the provider's list as it is. *)
Theorem fetch_accounts_policy (lib : Library) (auth : Authentication.t)
    (w : World) (account_list : list Account) (h' : FileSystem.t) :
  account_fetch lib auth (MONZO_HANDLER w) = (Ok account_list, h') →
  fst (fetch_accounts lib auth false w)
    = Ok (filter shows_transactions account_list)
  ∧ fst (fetch_accounts lib auth true w) = Ok account_list.
Proof.
  intros Hfetch.
  run_monad.
  rewrite Hfetch. simpl. split; [|reflexivity].
  f_equal. apply (select_loop_filter account_list []).
Qed.

Lemma fetch_accounts_policy_witness :
  fst (fetch_accounts friendly (stored_auth configured_handler) false configured_world)
    = Ok [current_account; joint_account]
  ∧ fst (fetch_accounts friendly (stored_auth configured_handler) true configured_world)
    = Ok [current_account; flex_account; loan_account; joint_account].
Proof.
  exact (fetch_accounts_policy friendly (stored_auth configured_handler)
           configured_world
           [current_account; flex_account; loan_account; joint_account]
           configured_handler eq_refl).
Defined.

(** ** Traces *)

Lemma drop_prefix_1 (t : list Event) (e1 : Event) :
  drop (length t) (t ++ [e1]) = [e1].
Proof. apply drop_app_length. Qed.

Lemma drop_prefix_2 (t : list Event) (e1 e2 : Event) :
  drop (length t) ((t ++ [e1]) ++ [e2]) = [e1; e2].
Proof. rewrite <- app_assoc. apply drop_app_length. Qed.

(** ** [/raw_request] *)

(** The calls of one POST: the [Authentication] object is built, and the
    request goes out once both fields have been decoded. *)
Lemma raw_request_post_calls (lib : Library) (request : Request) (w : World) :
  is_GET (method request) = false →
  calls_made (raw_request lib request) w
  = EvAuthentication (stored_auth (MONZO_HANDLER w))
    :: match decoded_headers lib request, decoded_parameters lib request with
       | Some headers, Some parameters =>
           [EvMakeRequest (stored_auth (MONZO_HANDLER w))
              (form_get_or_list request "path" "/")
              (authenticated_flag request)
              (form_get_or_list request "authenticated" "get")
              parameters headers]
       | _, _ => []
       end.
Proof.
  intros Hm.
  unfold calls_made, raw_request, decoded_headers, decoded_parameters,
    authenticated_flag. run_monad.
  rewrite auth_setup_run, Hm.
  destruct (form request !! "headers") as [hd|];
    [destruct (loads lib hd) as [jh|]|];
    (destruct (form request !! "parameters") as [pm|];
      [destruct (truthy pm); [destruct (loads lib pm) as [jp|]|]|]);
    try (destruct (make_request _ _ _ _ _ _ _ _) as [[r|[[]| |]] h']);
    simpl;
    first [ apply drop_prefix_2 | apply drop_prefix_1 ].
Qed.

(** A request found among the calls of a POST is the one request the
    handler builds. *)
Lemma raw_request_dispatched (lib : Library) (request : Request) (w : World)
    (auth : Authentication.t) (path m : form_value) (flag : bool)
    (data headers : json) :
  is_GET (method request) = false →
  EvMakeRequest auth path flag m data headers
    ∈ calls_made (raw_request lib request) w →
  path = form_get_or_list request "path" "/"
  ∧ flag = authenticated_flag request
  ∧ m = form_get_or_list request "authenticated" "get"
  ∧ decoded_parameters lib request = Some data
  ∧ decoded_headers lib request = Some headers.
Proof.
  intros Hget Hin. rewrite (raw_request_post_calls lib request w Hget) in Hin.
  apply elem_of_cons in Hin as [Hin|Hin]; [discriminate|].
  destruct (decoded_headers lib request), (decoded_parameters lib request);
    try (now apply elem_of_nil in Hin).
  apply list_elem_of_singleton in Hin. now inversion Hin.
Qed.

Lemma raw_request_bad_headers (lib : Library) (request : Request) (w : World)
    (v : string) :
  is_GET (method request) = false →
  form request !! "headers" = Some v →
  loads lib v = None →
  fst (raw_request lib request w) = Raise (JSONDecodeError v).
Proof.
  intros Hm Hv Hbad.
  unfold raw_request. run_monad.
  now rewrite auth_setup_run, Hm, Hv, Hbad.
Qed.

Lemma raw_request_reads_its_fields (lib : Library) (request request' : Request)
    (w : World) :
  method request' = method request →
  (∀ key, key ∈ raw_request_fields → form request' !! key = form request !! key) →
  raw_request lib request' w = raw_request lib request w.
Proof.
  intros Hm Hsame.
  assert (Ha := Hsame "authenticated"). assert (Hh := Hsame "headers").
  assert (Hp := Hsame "parameters"). assert (Hq := Hsame "path").
  unfold raw_request_fields in *.
  unfold raw_request, form_get_or_list.
  rewrite Hm, Ha, Hh, Hp, Hq by (rewrite !elem_of_cons; tauto).
  reflexivity.
Qed.

(** C3. In the POST branch of [/raw_request] the HTTP method handed to the
    provider request is the text of the form field [authenticated]: every
    dispatched request carries that text as its method, a request is
    dispatched as soon as headers and parameters decode, and two POSTs that
    differ only in a field named [request_type] run identically. *)
Theorem raw_request_method_is_authenticated_field (lib : Library)
    (request : Request) (w : World) (s : string) :
  method request = POST →
  form request !! "authenticated" = Some s →
  (∀ auth path flag m data headers,
     EvMakeRequest auth path flag m data headers
       ∈ calls_made (raw_request lib request) w →
     m = PyStr s)
  ∧ (∀ headers parameters,
       decoded_headers lib request = Some headers →
       decoded_parameters lib request = Some parameters →
       ∃ auth path flag,
         calls_made (raw_request lib request) w
         = [EvAuthentication auth;
            EvMakeRequest auth path flag (PyStr s) parameters headers])
  ∧ (∀ request',
       method request' = POST →
       (∀ key, key ≠ "request_type" → form request' !! key = form request !! key) →
       raw_request lib request' w = raw_request lib request w).
Proof.
  intros Hm Hs.
  pose proof (post_is_not_GET request Hm) as Hget.
  pose proof (raw_request_post_calls lib request w Hget) as Hcalls.
  unfold form_get_or_list in Hcalls at 2. rewrite Hs in Hcalls.
  split; [|split].
  - intros auth path flag m data headers Hin.
    destruct (raw_request_dispatched _ _ _ _ _ _ _ _ _ Hget Hin) as (_ & _ & -> & _).
    unfold form_get_or_list. now rewrite Hs.
  - intros headers parameters Hh Hp. rewrite Hh, Hp in Hcalls. eauto.
  - intros request' Hm' Hsame. apply raw_request_reads_its_fields.
    + congruence.
    + intros key Hin. apply Hsame. intros ->.
      unfold raw_request_fields in Hin. rewrite !elem_of_cons in Hin.
      destruct Hin as [?|[?|[?|[?|Hin]]]]; try discriminate.
      now apply elem_of_nil in Hin.
Qed.

Lemma raw_request_method_is_authenticated_field_witness :
  ∃ auth path flag,
    calls_made (raw_request friendly put_request) configured_world
    = [EvAuthentication auth;
       EvMakeRequest auth path flag (PyStr "PUT") (JObj []) (JObj [])].
Proof.
  refine (proj1 (proj2 (raw_request_method_is_authenticated_field
            friendly put_request configured_world "PUT" _ _)) _ _ _ _);
    vm_compute; reflexivity.
Defined.

(** C9. On a POST to [/raw_request] without a [parameters] field every
    dispatched request carries the empty parameter set, and the request is
    dispatched with it whenever the headers decode; with a [headers] field
    that is not JSON the handler stops with the decoding error and no call
    to the provider has been made. *)
Theorem raw_request_defaults_and_decoding (lib : Library) (request : Request)
    (w : World) :
  method request = POST →
  (form request !! "parameters" = None →
   (∀ auth path flag m data headers,
      EvMakeRequest auth path flag m data headers
        ∈ calls_made (raw_request lib request) w →
      data = JObj [])
   ∧ (∀ headers,
        decoded_headers lib request = Some headers →
        ∃ auth path flag m,
          calls_made (raw_request lib request) w
          = [EvAuthentication auth;
             EvMakeRequest auth path flag m (JObj []) headers]))
  ∧ (∀ v,
       form request !! "headers" = Some v →
       loads lib v = None →
       fst (raw_request lib request w) = Raise (JSONDecodeError v)
       ∧ Forall (λ ev, is_provider_call ev = false)
           (calls_made (raw_request lib request) w)).
Proof.
  intros Hm.
  pose proof (post_is_not_GET request Hm) as Hget.
  pose proof (raw_request_post_calls lib request w Hget) as Hcalls.
  split.
  - intros Hnone.
    assert (Hp : decoded_parameters lib request = Some (JObj []))
      by (unfold decoded_parameters; now rewrite Hnone).
    rewrite Hp in Hcalls. split.
    + intros auth path flag m data headers Hin.
      destruct (raw_request_dispatched _ _ _ _ _ _ _ _ _ Hget Hin)
        as (_ & _ & _ & Hdata & _).
      congruence.
    + intros headers Hh. rewrite Hh in Hcalls. eauto.
  - intros v Hv Hbad. split.
    + now apply raw_request_bad_headers.
    + assert (Hh : decoded_headers lib request = None)
        by (unfold decoded_headers; now rewrite Hv).
      rewrite Hcalls, Hh. repeat constructor.
Qed.

Lemma raw_request_defaults_and_decoding_witness :
  (∃ auth path flag m,
     calls_made (raw_request friendly put_request) configured_world
     = [EvAuthentication auth; EvMakeRequest auth path flag m (JObj []) (JObj [])])
  ∧ fst (raw_request friendly bad_headers_request configured_world)
    = Raise (JSONDecodeError "{not json").
Proof.
  split.
  - refine (proj2 (proj1 (raw_request_defaults_and_decoding
              friendly put_request configured_world _) _) _ _);
      vm_compute; reflexivity.
  - refine (proj1 (proj2 (raw_request_defaults_and_decoding
              friendly bad_headers_request configured_world _) _ _ _));
      vm_compute; reflexivity.
Defined.

(** C10. On a POST to [/raw_request] the [authenticated] flag of every
    dispatched request is the truthiness of the [authenticated] field: true
    when the field is absent or holds any non-empty text ("false" and "0"
    included), false exactly when the field is present and empty. *)
Theorem raw_request_authenticated_truthiness (lib : Library)
    (request : Request) (w : World) :
  method request = POST →
  (∀ auth path flag m data headers,
     EvMakeRequest auth path flag m data headers
       ∈ calls_made (raw_request lib request) w →
     (form request !! "authenticated" = None → flag = true)
     ∧ (∀ s, form request !! "authenticated" = Some s → s ≠ "" → flag = true)
     ∧ (flag = false ↔ form request !! "authenticated" = Some ""))
  ∧ (∀ headers parameters,
       decoded_headers lib request = Some headers →
       decoded_parameters lib request = Some parameters →
       ∃ auth path m,
         calls_made (raw_request lib request) w
         = [EvAuthentication auth;
            EvMakeRequest auth path (authenticated_flag request) m
              parameters headers]).
Proof.
  intros Hm.
  pose proof (post_is_not_GET request Hm) as Hget.
  pose proof (raw_request_post_calls lib request w Hget) as Hcalls.
  split.
  - intros auth path flag m data headers Hin.
    destruct (raw_request_dispatched _ _ _ _ _ _ _ _ _ Hget Hin) as (_ & -> & _).
    unfold authenticated_flag.
    destruct (form request !! "authenticated") as [s|].
    + split; [discriminate|split; [|split]].
      * intros s' [= <-] Hne. now apply truthy_true_iff.
      * destruct s; [reflexivity|discriminate].
      * intros [= ->]. reflexivity.
    + split; [reflexivity|split; [discriminate|split; discriminate]].
  - intros headers parameters Hh Hp. rewrite Hh, Hp in Hcalls. eauto.
Qed.

Lemma raw_request_authenticated_truthiness_witness :
  (∃ auth path m,
     calls_made (raw_request friendly unauthenticated_request) configured_world
     = [EvAuthentication auth; EvMakeRequest auth path false m (JObj []) (JObj [])])
  ∧ (∃ auth path m,
       calls_made (raw_request friendly false_text_request) configured_world
       = [EvAuthentication auth; EvMakeRequest auth path true m (JObj []) (JObj [])]).
Proof.
  split.
  - refine (proj2 (raw_request_authenticated_truthiness
              friendly unauthenticated_request configured_world _) _ _ _ _);
      vm_compute; reflexivity.
  - refine (proj2 (raw_request_authenticated_truthiness
              friendly false_text_request configured_world _) _ _ _ _);
      vm_compute; reflexivity.
Defined.

(** ** [/transactions] *)

Lemma calls_made_unchanged {A} (m : M A) (w : World) (r : Outcome A) :
  m w = (r, w) → calls_made m w = [].
Proof. intros Hrun. unfold calls_made. rewrite Hrun. apply drop_all. Qed.

Lemma transactions_without_account (lib : Library) (request : Request) (w : World) :
  form request !! "account" = None
  ∨ form request !! "account" = Some ""
  ∨ form request !! "account" = Some "Please Select" →
  transactions_for_account lib request w = (Ok no_account_specified, w).
Proof.
  unfold transactions_for_account.
  intros [-> | [-> | ->]]; reflexivity.
Qed.

Lemma transactions_with_account (lib : Library) (request : Request) (w : World)
    (a : string) :
  form request !! "account" = Some a →
  a ≠ "" →
  a ≠ "Please Select" →
  let auth := stored_auth (MONZO_HANDLER w) in
  let since := now lib - timedelta_days 30 in
  let answer := transaction_fetch lib auth (escape a) since ["merchant"] (MONZO_HANDLER w) in
  transactions_for_account lib request w
  = (transactions_view (fst answer),
     {| MONZO_HANDLER := snd answer;
        trace := (trace w ++ [EvAuthentication auth;
                              EvTransactionFetch auth (escape a) since ["merchant"]])%list |}).
Proof.
  intros Ha Hne Hsel. simpl.
  unfold transactions_for_account. rewrite Ha.
  rewrite truthy_escape.
  apply truthy_true_iff in Hne. rewrite Hne.
  rewrite escape_please_select.
  apply String.eqb_neq in Hsel. rewrite Hsel.
  run_monad.
  rewrite auth_setup_run. simpl.
  destruct (transaction_fetch _ _ _ _ _ _) as [[txs|[[]| |]] h'];
    simpl; now rewrite <- app_assoc.
Qed.

Lemma escape_plain (s : string) : html_plain s = true → escape s = s.
Proof.
  induction s as [|c rest IH]; simpl; [reflexivity|].
  intros H. apply andb_prop in H as [Hc Hrest].
  apply String.eqb_eq in Hc. rewrite Hc, IH by assumption. reflexivity.
Qed.

Example monzo_account_id_plain : html_plain "acc_00009237aqC8c5umZmrRdh" = true.
Proof. reflexivity. Qed.

(** C7, as amended. A request to [/transactions] whose [account] field is
    absent, empty or "Please Select" gets the error view "No account
    specified." and nothing is called; any other request builds the
    authentication object and calls [Transaction.fetch] once, with the
    HTML-escaped text of the field as account id (the field itself when it
    has none of the five escaped characters), [since] 30 days before now
    and expansion of [merchant]. *)
Theorem transactions_for_account_policy (lib : Library) (request : Request)
    (w : World) :
  (form request !! "account" = None
   ∨ form request !! "account" = Some ""
   ∨ form request !! "account" = Some "Please Select" →
   transactions_for_account lib request w
   = (Ok (Render "error.html" {[ "message" := CStr "No account specified." ]}), w)
   ∧ calls_made (transactions_for_account lib request) w = [])
  ∧ (∀ a,
       form request !! "account" = Some a →
       a ≠ "" →
       a ≠ "Please Select" →
       calls_made (transactions_for_account lib request) w
       = [EvAuthentication (stored_auth (MONZO_HANDLER w));
          EvTransactionFetch (stored_auth (MONZO_HANDLER w)) (escape a)
            (now lib - 30 * 86400 * 1000000) ["merchant"]]
       ∧ (html_plain a = true → escape a = a)).
Proof.
  split.
  - intros Hmissing.
    pose proof (transactions_without_account lib request w Hmissing) as Hrun.
    split; [exact Hrun|]. eapply calls_made_unchanged, Hrun.
  - intros a Ha Hne Hsel. split; [|apply escape_plain].
    unfold calls_made.
    rewrite (transactions_with_account lib request w a Ha Hne Hsel).
    simpl. apply drop_app_length.
Qed.

Lemma transactions_for_account_policy_witness :
  (transactions_for_account friendly placeholder_request configured_world
   = (Ok (Render "error.html" {[ "message" := CStr "No account specified." ]}),
      configured_world)
   ∧ calls_made (transactions_for_account friendly placeholder_request)
       configured_world = [])
  ∧ calls_made (transactions_for_account friendly account_request) configured_world
    = [EvAuthentication (stored_auth configured_handler);
       EvTransactionFetch (stored_auth configured_handler) "acc_1"
         (1700000000000000 - 30 * 86400 * 1000000) ["merchant"]].
Proof.
  split.
  - apply (proj1 (transactions_for_account_policy friendly placeholder_request
                    configured_world)).
    right; right. vm_compute; reflexivity.
  - refine (proj1 (proj2 (transactions_for_account_policy friendly account_request
                    configured_world) "acc_1" _ _ _));
      [vm_compute; reflexivity | discriminate | discriminate].
Defined.

(** C7 as stated fails where the account text has a character [escape]
    rewrites: the fetch is made for the escaped text, not for the account
    that was submitted. *)
Lemma transactions_fetch_not_for_submitted_account :
  form ampersand_account_request !! "account" = Some "acc&1"
  ∧ calls_made (transactions_for_account friendly ampersand_account_request)
      configured_world
    = [EvAuthentication (stored_auth configured_handler);
       EvTransactionFetch (stored_auth configured_handler) "acc&amp;1"
         (1700000000000000 - 30 * 86400 * 1000000) ["merchant"]]
  ∧ "acc&amp;1" ≠ "acc&1".
Proof.
  split; [vm_compute; reflexivity|]. split; [vm_compute; reflexivity|discriminate].
Qed.

(** ** [/setup/] *)

Lemma setup_post_empty (lib : Library) (request : Request) (w : World)
    (c s : string) :
  is_GET (method request) = false →
  form request !! "client_id" = Some c →
  form request !! "client_secret" = Some s →
  c = "" ∨ s = "" →
  setup lib request w = (Ok (Render "setup.html" (setup_form_context c s)), w).
Proof.
  intros Hm Hc Hs Hempty.
  unfold setup. run_monad. rewrite Hm, Hc, Hs.
  rewrite !not_len_truthy, !truthy_escape.
  destruct Hempty as [-> | ->]; simpl.
  - reflexivity.
  - now rewrite orb_true_r.
Qed.

Lemma setup_post_filled (lib : Library) (request : Request) (w : World)
    (c s : string) :
  is_GET (method request) = false →
  form request !! "client_id" = Some c →
  form request !! "client_secret" = Some s →
  c ≠ "" →
  s ≠ "" →
  let h := FileSystem.set_client_details (escape c) (escape s) (MONZO_HANDLER w) in
  setup lib request w
  = (Ok (Redirect (authentication_url lib (stored_auth h))),
     {| MONZO_HANDLER := h;
        trace := (trace w ++ [EvSetClientDetails (escape c) (escape s);
                              EvAuthentication (stored_auth h)])%list |}).
Proof.
  intros Hm Hc Hs Hcne Hsne. simpl.
  unfold setup. run_monad. rewrite Hm, Hc, Hs.
  rewrite !not_len_truthy, !truthy_escape.
  apply truthy_true_iff in Hcne, Hsne. rewrite Hcne, Hsne. simpl.
  unfold auth_setup, falsy_arg. run_monad. simpl.
  rewrite !truthy_escape, Hcne, Hsne. simpl.
  now rewrite <- app_assoc.
Qed.

(** A POST that leaves one of the two fields out altogether stops at
    [request.form[...]] with Werkzeug's missing-key error; nothing has been
    written or called by then. *)
Lemma setup_post_missing_field (lib : Library) (request : Request) (w : World) :
  is_GET (method request) = false →
  form request !! "client_id" = None ∨ form request !! "client_secret" = None →
  ∃ key, setup lib request w = (Raise (BadRequestKeyError key), w).
Proof.
  intros Hm Hmissing. unfold setup. run_monad. rewrite Hm.
  destruct (form request !! "client_id") as [c|].
  - destruct Hmissing as [H|H]; [discriminate|]. rewrite H. eauto.
  - eauto.
Qed.

(** C5, as amended. A POST to [/setup/] whose client id or client secret
    is submitted empty never writes the credential store: the world is left
    as it was (no [set_client_details], no call at all), whether or not the
    other field was submitted.  When both fields are submitted, one of them
    empty, the answer is the setup form re-rendered with the validation
    message. *)
Theorem setup_rejects_empty_credentials (lib : Library) (request : Request)
    (w : World) :
  method request = POST →
  form request !! "client_id" = Some ""
  ∨ form request !! "client_secret" = Some "" →
  snd (setup lib request w) = w
  ∧ MONZO_HANDLER (snd (setup lib request w)) = MONZO_HANDLER w
  ∧ calls_made (setup lib request) w = []
  ∧ (is_Some (form request !! "client_id") →
     is_Some (form request !! "client_secret") →
     ∃ context,
       setup lib request w = (Ok (Render "setup.html" context), w)
       ∧ context !! "message"
         = Some (CStr "Ensure you enter both a Client ID and a Client Secret.")).
Proof.
  intros Hm Hempty.
  pose proof (post_is_not_GET request Hm) as Hget.
  destruct (form request !! "client_id") as [c|] eqn:Hc;
    [destruct (form request !! "client_secret") as [s|] eqn:Hs|].
  - assert (Hce : c = "" ∨ s = "")
      by (destruct Hempty as [[= ->]|[= ->]]; auto).
    pose proof (setup_post_empty lib request w c s Hget Hc Hs Hce) as Hrun.
    rewrite Hrun. split; [reflexivity|]. split; [reflexivity|].
    split; [eapply calls_made_unchanged, Hrun|].
    intros _ _. exists (setup_form_context c s). split; [reflexivity|].
    unfold setup_form_context. apply lookup_insert_eq.
  - destruct (setup_post_missing_field lib request w Hget (or_intror Hs))
      as [key Hrun].
    rewrite Hrun. split; [reflexivity|]. split; [reflexivity|].
    split; [eapply calls_made_unchanged, Hrun|].
    intros _ [? ?]. discriminate.
  - destruct (setup_post_missing_field lib request w Hget (or_introl Hc))
      as [key Hrun].
    rewrite Hrun. split; [reflexivity|]. split; [reflexivity|].
    split; [eapply calls_made_unchanged, Hrun|].
    intros [? ?]. discriminate.
Qed.

Lemma setup_rejects_empty_credentials_witness :
  (snd (setup friendly empty_secret_request configured_world) = configured_world
   ∧ MONZO_HANDLER (snd (setup friendly empty_secret_request configured_world))
     = MONZO_HANDLER configured_world
   ∧ calls_made (setup friendly empty_secret_request) configured_world = []
   ∧ ∃ context,
       setup friendly empty_secret_request configured_world
       = (Ok (Render "setup.html" context), configured_world)
       ∧ context !! "message"
         = Some (CStr "Ensure you enter both a Client ID and a Client Secret."))
  ∧ snd (setup friendly empty_id_only_request configured_world) = configured_world.
Proof.
  split.
  - destruct (setup_rejects_empty_credentials friendly empty_secret_request
                configured_world) as (Hworld & Hstore & Hcalls & Hform);
      [reflexivity | right; vm_compute; reflexivity |].
    split; [exact Hworld|]. split; [exact Hstore|]. split; [exact Hcalls|].
    apply Hform; vm_compute; eauto.
  - apply (setup_rejects_empty_credentials friendly empty_id_only_request
             configured_world);
      [reflexivity | left; vm_compute; reflexivity].
Defined.

(** C5 as stated fails when one field is submitted empty and the other is
    left out: the handler reads both fields before it tests either, so the
    request ends in Werkzeug's missing-key error and the form is not
    re-rendered. *)
Lemma setup_empty_field_without_the_other_is_not_rerendered :
  (form empty_id_only_request !! "client_id" = Some ""
   ∧ form empty_id_only_request !! "client_secret" = None
   ∧ setup friendly empty_id_only_request configured_world
     = (Raise (BadRequestKeyError "client_secret"), configured_world))
  ∧ (form empty_secret_only_request !! "client_secret" = Some ""
     ∧ form empty_secret_only_request !! "client_id" = None
     ∧ setup friendly empty_secret_only_request configured_world
       = (Raise (BadRequestKeyError "client_id"), configured_world)).
Proof.
  split; (split; [vm_compute; reflexivity|split; vm_compute; reflexivity]).
Qed.

(** C6, as amended. A POST to [/setup/] with both fields non-empty stores
    the HTML-escaped client id and client secret (the submitted texts
    themselves when they have none of the five escaped characters) through
    [set_client_details], builds the authentication object from the stored
    pair and redirects to that object's authorization URL. *)
Theorem setup_persists_escaped_credentials (lib : Library) (request : Request)
    (w : World) (c s : string) :
  method request = POST →
  form request !! "client_id" = Some c →
  form request !! "client_secret" = Some s →
  c ≠ "" →
  s ≠ "" →
  ∃ auth,
    setup lib request w
    = (Ok (Redirect (authentication_url lib auth)),
       {| MONZO_HANDLER :=
            FileSystem.set_client_details (escape c) (escape s) (MONZO_HANDLER w);
          trace := (trace w ++ [EvSetClientDetails (escape c) (escape s);
                                EvAuthentication auth])%list |})
    ∧ Authentication.client_id auth = escape c
    ∧ Authentication.client_secret auth = escape s
    ∧ (html_plain c = true → escape c = c)
    ∧ (html_plain s = true → escape s = s).
Proof.
  intros Hm Hc Hs Hcne Hsne.
  eexists. split.
  - apply setup_post_filled; [now rewrite Hm|assumption..].
  - repeat split; auto using escape_plain.
Qed.

Lemma setup_persists_escaped_credentials_witness :
  FileSystem.client_id
    (MONZO_HANDLER (snd (setup friendly credentials_request fresh_world)))
  = "oauth2client_9"
  ∧ FileSystem.client_secret
      (MONZO_HANDLER (snd (setup friendly credentials_request fresh_world)))
    = "mnzconf.s3cret"
  ∧ fst (setup friendly credentials_request fresh_world)
    = Ok (Redirect "https://auth.monzo.com/?client_id=oauth2client_9").
Proof.
  destruct (setup_persists_escaped_credentials friendly credentials_request
              fresh_world "oauth2client_9" "mnzconf.s3cret")
    as [auth [Hrun [Hid _]]];
    [reflexivity | vm_compute; reflexivity | vm_compute; reflexivity
    | discriminate | discriminate |].
  rewrite Hrun. simpl. rewrite Hid. repeat split.
Defined.

(** C6 as stated fails where a credential has a character [escape]
    rewrites: what reaches the store is the escaped text. *)
Lemma setup_does_not_persist_submitted_values :
  form ampersand_credentials_request !! "client_id" = Some "id&1"
  ∧ form ampersand_credentials_request !! "client_secret" = Some "<secret>"
  ∧ snd (setup friendly ampersand_credentials_request fresh_world)
    = {| MONZO_HANDLER :=
           {| FileSystem.client_id := "id&amp;1";
              FileSystem.client_secret := "&lt;secret&gt;";
              FileSystem.access_token := None;
              FileSystem.refresh_token := None;
              FileSystem.expiry := None |};
         trace :=
           [EvSetClientDetails "id&amp;1" "&lt;secret&gt;";
            EvAuthentication
              {| Authentication.access_token := None;
                 Authentication.access_token_expiry := None;
                 Authentication.client_id := "id&amp;1";
                 Authentication.client_secret := "&lt;secret&gt;";
                 Authentication.redirect_url := REDIRECT_URL;
                 Authentication.refresh_token := None |}] |}
  ∧ "id&amp;1" ≠ "id&1"
  ∧ "&lt;secret&gt;" ≠ "<secret>".
Proof.
  split; [vm_compute; reflexivity|]. split; [vm_compute; reflexivity|].
  split; [vm_compute; reflexivity|]. split; discriminate.
Qed.

(** ** [/setup/callback/] *)

(** C8. A request to [/setup/callback/] whose query string lacks [code] or
    lacks [state] gets the error view "Missing parameters."; the world is
    left as it was: no [Authentication] object is built and no code
    exchange is made. *)
Theorem setup_callback_missing_parameters (lib : Library) (request : Request)
    (w : World) :
  args request !! "code" = None ∨ args request !! "state" = None →
  setup_callback lib request w
  = (Ok (Render "error.html" {[ "message" := CStr "Missing parameters." ]}), w)
  ∧ calls_made (setup_callback lib request) w = []
  ∧ Forall (λ ev, is_authentication_use ev = false)
      (calls_made (setup_callback lib request) w).
Proof.
  intros Hmissing.
  assert (Hrun : setup_callback lib request w
                 = (Ok (Render "error.html"
                          {[ "message" := CStr "Missing parameters." ]}), w)).
  { unfold setup_callback, args_has.
    destruct Hmissing as [H | H]; rewrite H.
    - rewrite bool_decide_eq_false_2 by (intros [? ?]; discriminate). reflexivity.
    - rewrite (bool_decide_eq_false_2 (is_Some None)) by (intros [? ?]; discriminate).
      rewrite andb_false_r. reflexivity. }
  split; [exact Hrun|].
  rewrite (calls_made_unchanged _ _ _ Hrun). split; [reflexivity|constructor].
Qed.

Lemma setup_callback_missing_parameters_witness :
  setup_callback friendly callback_without_state configured_world
  = (Ok (Render "error.html" {[ "message" := CStr "Missing parameters." ]}),
     configured_world)
  ∧ calls_made (setup_callback friendly callback_without_state) configured_world = []
  ∧ Forall (λ ev, is_authentication_use ev = false)
      (calls_made (setup_callback friendly callback_without_state) configured_world).
Proof.
  apply (setup_callback_missing_parameters friendly callback_without_state
           configured_world).
  right. vm_compute; reflexivity.
Defined.

(** ** [/feed_item] *)

Lemma add_optional_lookup (request : Request) (parameters : gmap string string)
    (k key : string) :
  add_optional request parameters k !! key
  = if decide (key = k)
    then match form request !! k with
         | Some v => Some (escape v)
         | None => parameters !! k
         end
    else parameters !! key.
Proof.
  unfold add_optional.
  destruct (decide (key = k)) as [->|Hne]; destruct (form request !! k) as [v|].
  - apply lookup_insert_eq.
  - reflexivity.
  - apply lookup_insert_ne. congruence.
  - reflexivity.
Qed.

Lemma add_optional_loop_lookup (request : Request) (keys : list string) :
  ∀ (parameters : gmap string string) (key : string),
    foldl (add_optional request) parameters keys !! key
    = if bool_decide (key ∈ keys)
      then match form request !! key with
           | Some v => Some (escape v)
           | None => parameters !! key
           end
      else parameters !! key.
Proof.
  induction keys as [|k keys IH]; intros parameters key; simpl.
  - reflexivity.
  - rewrite IH, add_optional_lookup.
    destruct (decide (key = k)) as [->|Hne].
    + rewrite (bool_decide_eq_true_2 (k ∈ k :: keys)) by (apply elem_of_cons; now left).
      destruct (form request !! k) as [v|];
        now destruct (bool_decide (k ∈ keys)).
    + destruct (decide (key ∈ keys)) as [Hin|Hnin].
      * rewrite !bool_decide_eq_true_2; [reflexivity| |assumption].
        apply elem_of_cons; now right.
      * rewrite !bool_decide_eq_false_2; [reflexivity| |assumption].
        rewrite elem_of_cons. tauto.
Qed.


Lemma feed_iten_post (lib : Library) (request : Request) (w : World)
    (account_list : list Account) (h1 : FileSystem.t) (t a : string) :
  is_GET (method request) = false →
  account_fetch lib (stored_auth (MONZO_HANDLER w)) (MONZO_HANDLER w)
    = (Ok account_list, h1) →
  form request !! "title" = Some t →
  form request !! "account" = Some a →
  let auth0 := stored_auth (MONZO_HANDLER w) in
  let auth1 := stored_auth h1 in
  let create :=
    feed_item_create lib auth1 (escape a) "basic" (feed_parameters request t)
      (escape <$> form request !! "feed_item_url") in
  feed_iten lib request w
  = (feed_view (filter shows_transactions account_list) (fst (create h1)),
     {| MONZO_HANDLER := snd (create h1);
        trace := (trace w ++
                  [EvAuthentication auth0; EvAccountFetch auth0;
                   EvAuthentication auth1;
                   EvFeedItemCreate auth1 (escape a) "basic"
                     (feed_parameters request t)
                     (escape <$> form request !! "feed_item_url")])%list |}).
Proof.
  intros Hm Hfetch Ht Ha. simpl.
  unfold feed_iten. run_monad.
  rewrite auth_setup_run. cbn beta iota. cbn [MONZO_HANDLER trace].
  rewrite Hfetch, Hm, Ht, Ha. cbn beta iota. cbn [negb].
  rewrite auth_setup_run. cbn beta iota. cbn [MONZO_HANDLER trace].
  rewrite (select_loop_filter account_list []). cbn [app].
  destruct (feed_item_create _ _ _ _ _ _ _) as [[[]|[[]| |]] h2];
    cbn [fst snd feed_view]; now rewrite <- !app_assoc.
Qed.

(** ** Escaping of form fields *)




(** ** Provider errors *)

Lemma accounts_run (lib : Library) (request : Request) (w : World) :
  FileSystem.is_configured (MONZO_HANDLER w) = true →
  let auth := stored_auth (MONZO_HANDLER w) in
  fst (accounts lib request w)
  = match fst (account_fetch lib auth (MONZO_HANDLER w)) with
    | Ok account_list =>
        Ok (Render "accounts.html" {[ "accounts" := CAccounts account_list ]})
    | Raise (Monzo MonzoPermissionsError) =>
        Ok (Render "error.html"
              {[ "error" := CStr "The request resulted in a permissions error." ]})
    | Raise e => Raise e
    end.
Proof.
  intros Hconf. simpl.
  unfold accounts. run_monad.
  cbn beta iota. rewrite Hconf. cbn [negb].
  rewrite auth_setup_run. cbn beta iota. cbn [MONZO_HANDLER trace].
  destruct (account_fetch _ _ _) as [[l|[[]| |]] h']; reflexivity.
Qed.

Lemma raw_request_run (lib : Library) (request : Request) (w : World)
    (headers parameters : json) :
  is_GET (method request) = false →
  decoded_headers lib request = Some headers →
  decoded_parameters lib request = Some parameters →
  let auth := stored_auth (MONZO_HANDLER w) in
  let page (records : json) : Outcome Response :=
    Ok (Render "raw_request_result.html" {[ "records" := CStr (dumps lib records) ]}) in
  fst (raw_request lib request w)
  = match fst (make_request lib auth (form_get_or_list request "path" "/")
                 (authenticated_flag request)
                 (form_get_or_list request "authenticated" "get")
                 parameters headers (MONZO_HANDLER w)) with
    | Ok records => page records
    | Raise (Monzo MonzoPermissionsError) =>
        page (JObj [("message", JStr "The request resulted in a permissions error.")])
    | Raise (Monzo MonzoHTTPError) =>
        page (JObj [("message", JStr "The request appears invalid.")])
    | Raise e => Raise e
    end.
Proof.
  intros Hm Hh Hp. simpl.
  unfold decoded_headers, decoded_parameters in Hh, Hp.
  unfold raw_request, authenticated_flag. run_monad.
  rewrite auth_setup_run, Hm.
  destruct (form request !! "headers") as [hd|];
    [destruct (loads lib hd) as [jh|]; [|discriminate]|];
    (destruct (form request !! "parameters") as [pm|];
      [destruct (truthy pm); [destruct (loads lib pm) as [jp|]; [|discriminate]|]|]);
    injection Hh as <-; injection Hp as <-;
    cbn beta iota; cbn [MONZO_HANDLER trace];
    destruct (make_request _ _ _ _ _ _ _ _) as [[r|[[]| |]] h']; reflexivity.
Qed.

Lemma setup_callback_run (lib : Library) (request : Request) (w : World)
    (code state : string) :
  args request !! "code" = Some code →
  args request !! "state" = Some state →
  let auth :=
    {| Authentication.access_token := None;
       Authentication.access_token_expiry := None;
       Authentication.client_id := FileSystem.client_id (MONZO_HANDLER w);
       Authentication.client_secret := FileSystem.client_secret (MONZO_HANDLER w);
       Authentication.redirect_url := REDIRECT_URL;
       Authentication.refresh_token := None |} in
  fst (setup_callback lib request w)
  = match fst (authenticate lib auth code state (MONZO_HANDLER w)) with
    | Ok _ => Ok (Render "success.html" ∅)
    | Raise (Monzo MonzoAuthenticationError) =>
        Ok (Render "error.html" {[ "message" := CStr "Monzo authentication error." ]})
    | Raise (Monzo MonzoServerError) =>
        Ok (Render "error.html" {[ "message" := CStr "Monzo server error." ]})
    | Raise e => Raise e
    end.
Proof.
  intros Hc Hs. simpl.
  unfold setup_callback, args_has, args_item. rewrite Hc, Hs.
  rewrite !bool_decide_eq_true_2 by eauto.
  run_monad.
  cbn beta iota. cbn [andb MONZO_HANDLER trace].
  destruct (authenticate _ _ _ _ _) as [[[]|[[]| |]] h']; reflexivity.
Qed.

(** C4, as amended. Each handler converts into a rendered view the error
    kinds that the [try] statement around its provider call names, and any
    other kind raised by that call leaves the handler as an exception:
    [/accounts] catches a permissions error of the account listing;
    [/feed_item] an HTTP or permissions error of the feed item creation;
    [/transactions] a permissions error of the transaction fetch;
    [/raw_request] a permissions or HTTP error of the raw request, answered
    with a substituted message body; [/setup/callback/] an authentication or
    server error of the code exchange. *)
Theorem provider_errors_caught_per_route (lib : Library) (request : Request)
    (w : World) (e : MonzoError) :
  let h := MONZO_HANDLER w in
  (FileSystem.is_configured h = true →
   fst (account_fetch lib (stored_auth h) h) = Raise (Monzo e) →
   fst (accounts lib request w)
   = match e with
     | MonzoPermissionsError =>
         Ok (Render "error.html"
               {[ "error" := CStr "The request resulted in a permissions error." ]})
     | _ => Raise (Monzo e)
     end)
  ∧ (∀ account_list h1 t a,
       method request = POST →
       account_fetch lib (stored_auth h) h = (Ok account_list, h1) →
       form request !! "title" = Some t →
       form request !! "account" = Some a →
       fst (feed_item_create lib (stored_auth h1) (escape a) "basic"
              (feed_parameters request t)
              (escape <$> form request !! "feed_item_url") h1)
         = Raise (Monzo e) →
       let context : gmap string ContextValue :=
         {[ "accounts" := CAccounts (filter shows_transactions account_list) ]} in
       fst (feed_iten lib request w)
       = match e with
         | MonzoHTTPError =>
             Ok (Render "error.html"
                   (<["message" := CStr "The Monzo API did not understand the request."]>
                      context))
         | MonzoPermissionsError =>
             Ok (Render "error.html"
                   (<["message" := CStr "The request resulted in a permissions error."]>
                      context))
         | _ => Raise (Monzo e)
         end)
  ∧ (∀ a,
       form request !! "account" = Some a →
       a ≠ "" →
       a ≠ "Please Select" →
       fst (transaction_fetch lib (stored_auth h) (escape a)
              (now lib - timedelta_days 30) ["merchant"] h)
         = Raise (Monzo e) →
       fst (transactions_for_account lib request w)
       = match e with
         | MonzoPermissionsError =>
             Ok (Render "error.html"
                   {[ "message" :=
                        CStr ("The API returned a permissions issue. Either the token has "
                              ++ "expired or the account cannot return transactions.") ]})
         | _ => Raise (Monzo e)
         end)
  ∧ (∀ headers parameters,
       method request = POST →
       decoded_headers lib request = Some headers →
       decoded_parameters lib request = Some parameters →
       fst (make_request lib (stored_auth h) (form_get_or_list request "path" "/")
              (authenticated_flag request)
              (form_get_or_list request "authenticated" "get")
              parameters headers h)
         = Raise (Monzo e) →
       let page (message : string) : Outcome Response :=
         Ok (Render "raw_request_result.html"
               {[ "records" := CStr (dumps lib (JObj [("message", JStr message)])) ]}) in
       fst (raw_request lib request w)
       = match e with
         | MonzoPermissionsError => page "The request resulted in a permissions error."
         | MonzoHTTPError => page "The request appears invalid."
         | _ => Raise (Monzo e)
         end)
  ∧ (∀ code state,
       args request !! "code" = Some code →
       args request !! "state" = Some state →
       fst (authenticate lib
              {| Authentication.access_token := None;
                 Authentication.access_token_expiry := None;
                 Authentication.client_id := FileSystem.client_id h;
                 Authentication.client_secret := FileSystem.client_secret h;
                 Authentication.redirect_url := REDIRECT_URL;
                 Authentication.refresh_token := None |}
              code state h)
         = Raise (Monzo e) →
       fst (setup_callback lib request w)
       = match e with
         | MonzoAuthenticationError =>
             Ok (Render "error.html" {[ "message" := CStr "Monzo authentication error." ]})
         | MonzoServerError =>
             Ok (Render "error.html" {[ "message" := CStr "Monzo server error." ]})
         | _ => Raise (Monzo e)
         end).
Proof.
  intros h. subst h. split; [|split; [|split; [|split]]].
  - intros Hconf Hraise.
    rewrite (accounts_run lib request w Hconf). cbn zeta. rewrite Hraise.
    now destruct e.
  - intros account_list h1 t a Hm Hfetch Ht Ha Hraise.
    pose proof (post_is_not_GET request Hm) as Hget.
    rewrite (feed_iten_post lib request w account_list h1 t a Hget Hfetch Ht Ha).
    cbn [fst]. rewrite Hraise. now destruct e.
  - intros a Ha Hne Hsel Hraise.
    rewrite (transactions_with_account lib request w a Ha Hne Hsel).
    cbn [fst]. rewrite Hraise. now destruct e.
  - intros headers parameters Hm Hh Hp Hraise.
    pose proof (post_is_not_GET request Hm) as Hget.
    rewrite (raw_request_run lib request w headers parameters Hget Hh Hp).
    cbn zeta. rewrite Hraise. now destruct e.
  - intros code state Hc Hs Hraise.
    rewrite (setup_callback_run lib request w code state Hc Hs).
    cbn zeta. rewrite Hraise. now destruct e.
Qed.

Lemma provider_errors_caught_per_route_witness :
  fst (accounts listing_denied (get_with []) configured_world)
  = Ok (Render "error.html"
          {[ "error" := CStr "The request resulted in a permissions error." ]})
  ∧ fst (feed_iten calls_rejected feed_request configured_world)
    = Ok (Render "error.html"
            (<["message" := CStr "The Monzo API did not understand the request."]>
               {[ "accounts" := CAccounts [current_account] ]}))
  ∧ fst (transactions_for_account calls_denied account_request configured_world)
    = Ok (Render "error.html"
            {[ "message" :=
                 CStr ("The API returned a permissions issue. Either the token has "
                       ++ "expired or the account cannot return transactions.") ]})
  ∧ fst (raw_request calls_rejected put_request configured_world)
    = Ok (Render "raw_request_result.html" {[ "records" := CStr "<object>" ]})
  ∧ fst (setup_callback calls_denied callback_request configured_world)
    = Ok (Render "error.html" {[ "message" := CStr "Monzo server error." ]}).
Proof.
  split; [|split; [|split; [|split]]].
  - apply (proj1 (provider_errors_caught_per_route listing_denied (get_with [])
                    configured_world MonzoPermissionsError)); reflexivity.
  - apply (proj1 (proj2 (provider_errors_caught_per_route calls_rejected
                    feed_request configured_world MonzoHTTPError))
             [current_account; flex_account] configured_handler
             "<b>Hi</b>" "acc_1");
      vm_compute; reflexivity.
  - apply (proj1 (proj2 (proj2 (provider_errors_caught_per_route calls_denied
                    account_request configured_world MonzoPermissionsError)))
             "acc_1");
      [vm_compute; reflexivity | discriminate | discriminate | reflexivity].
  - apply (proj1 (proj2 (proj2 (proj2 (provider_errors_caught_per_route
                    calls_rejected put_request configured_world MonzoHTTPError))))
             (JObj []) (JObj []));
      vm_compute; reflexivity.
  - apply (proj2 (proj2 (proj2 (proj2 (provider_errors_caught_per_route
                    calls_denied callback_request configured_world
                    MonzoServerError))))
             "abc123" "xyz");
      vm_compute; reflexivity.
Defined.

(** C4 as stated fails: [/transactions] catches the permissions error only,
    so an HTTP error of the transaction fetch leaves the handler. *)
Lemma transactions_http_error_propagates :
  form account_request !! "account" = Some "acc_1"
  ∧ fst (transaction_fetch calls_rejected (stored_auth configured_handler) "acc_1"
           (now calls_rejected - timedelta_days 30) ["merchant"] configured_handler)
    = Raise (Monzo MonzoHTTPError)
  ∧ fst (transactions_for_account calls_rejected account_request configured_world)
    = Raise (Monzo MonzoHTTPError).
Proof.
  split; [vm_compute; reflexivity|]. split; vm_compute; reflexivity.
Qed.

(** * Further properties of the handlers *)

(** ** Which entry points a handler uses *)

Lemma calls_only_pure {A} (P : Event → bool) (m : M A) :
  (∀ w, snd (m w) = w) → calls_only P m.
Proof.
  intros Hm w. exists []. rewrite Hm, app_nil_r. split; [reflexivity|constructor].
Qed.

Lemma calls_only_ret {A} (P : Event → bool) (a : A) : calls_only P (ret a).
Proof. now apply calls_only_pure. Qed.

Lemma calls_only_raise {A} (P : Event → bool) (e : exn) : calls_only P (@raise A e).
Proof. now apply calls_only_pure. Qed.

Lemma calls_only_get_handler (P : Event → bool) : calls_only P get_handler.
Proof. now apply calls_only_pure. Qed.

Lemma calls_only_emit (P : Event → bool) (ev : Event) :
  P ev = true → calls_only P (emit ev).
Proof. intros Hev w. exists [ev]. split; [reflexivity|]. now constructor. Qed.

Lemma calls_only_set_client_details (P : Event → bool) (c s : string) :
  P (EvSetClientDetails c s) = true → calls_only P (set_client_details c s).
Proof.
  intros Hev w. exists [EvSetClientDetails c s]. split; [reflexivity|].
  now constructor.
Qed.

Lemma calls_only_library_call {A} (P : Event → bool) (ev : Event)
    (f : FileSystem.t → Outcome A * FileSystem.t) :
  P ev = true → calls_only P (library_call ev f).
Proof.
  intros Hev w. exists [ev]. unfold library_call.
  destruct (f (MONZO_HANDLER w)). split; [reflexivity|]. now constructor.
Qed.

Lemma calls_only_bind {A B} (P : Event → bool) (m : M A) (k : A → M B) :
  calls_only P m → (∀ a, calls_only P (k a)) → calls_only P (bind m k).
Proof.
  intros Hm Hk w. unfold bind.
  destruct (Hm w) as (calls & Hcalls & HP).
  destruct (m w) as [[a|e] w1]; simpl in *.
  - destruct (Hk a w1) as (calls' & Hcalls' & HP').
    exists (calls ++ calls')%list. split.
    + now rewrite Hcalls', Hcalls, app_assoc.
    + apply Forall_app; auto.
  - now exists calls.
Qed.

Lemma calls_only_try_except {A} (P : Event → bool) (m : M A)
    (h : exn → option (M A)) :
  calls_only P m →
  (∀ e k, h e = Some k → calls_only P k) →
  calls_only P (try_except m h).
Proof.
  intros Hm Hh w. unfold try_except.
  destruct (Hm w) as (calls & Hcalls & HP).
  destruct (m w) as [[a|e] w1]; simpl in *.
  - now exists calls.
  - destruct (h e) as [k|] eqn:He; simpl.
    + destruct (Hh e k He w1) as (calls' & Hcalls' & HP').
      exists (calls ++ calls')%list. split.
      * now rewrite Hcalls', Hcalls, app_assoc.
      * apply Forall_app; auto.
    + now exists calls.
Qed.

Lemma calls_only_calls_made {A} (P : Event → bool) (m : M A) (w : World) :
  calls_only P m → Forall (λ ev, P ev = true) (calls_made m w).
Proof.
  intros Hm. destruct (Hm w) as (calls & Hcalls & HP).
  unfold calls_made. now rewrite Hcalls, drop_app_length.
Qed.

(** Walk through a handler as [extends_step] does; at a leaf the event has
    to pass the test, which [leaf] shows. *)
Ltac calls_only_step leaf :=
  match goal with
  | |- calls_only _ (bind _ _) => apply calls_only_bind; [|intros ?]
  | |- calls_only _ (try_except _ _) =>
      apply calls_only_try_except;
      [|let e := fresh "e" in let k := fresh "k" in let He := fresh "He" in
        intros e k He;
        repeat match type of He with
               | context [match ?x with _ => _ end] => destruct x
               end;
        try discriminate; injection He as <-]
  | |- calls_only _ (ret _) => apply calls_only_ret
  | |- calls_only _ (raise _) => apply calls_only_raise
  | |- calls_only _ get_handler => apply calls_only_get_handler
  | |- calls_only _ (emit _) => apply calls_only_emit; leaf
  | |- calls_only _ (set_client_details _ _) =>
      apply calls_only_set_client_details; leaf
  | |- calls_only _ (library_call _ _) => apply calls_only_library_call; leaf
  | |- calls_only _ (match ?x with _ => _ end) => destruct x
  | |- calls_only _ (if ?b then _ else _) => destruct b
  | |- calls_only _ (let '(_, _) := ?p in _) => destruct p
  end.

Ltac calls_only_by leaf := run_monad_keep; repeat calls_only_step leaf.

Ltac calls_only_auto := calls_only_by ltac:(reflexivity).

(** X1. Whatever the request and whatever the library answers, a handler
    uses only its own entry points: [index] leaves no call at all;
    [accounts] only builds the authentication object and lists accounts;
    [feed_iten] adds the feed item creation; [transactions_for_account] only
    fetches transactions; [raw_request] only makes the raw request; [setup]
    only writes the client details and builds the object, never reaching the
    provider; [setup_callback] only exchanges the code.  In particular no
    handler but [setup] writes the client details. *)
Theorem handlers_use_only_their_entry_points (lib : Library) (request : Request)
    (w : World) :
  calls_made (index request) w = []
  ∧ Forall (λ ev, of_kinds [AuthObject; AccountListing] ev = true)
      (calls_made (accounts lib request) w)
  ∧ Forall (λ ev, of_kinds [AuthObject; AccountListing; FeedPosting] ev = true)
      (calls_made (feed_iten lib request) w)
  ∧ Forall (λ ev, of_kinds [AuthObject; TransactionListing] ev = true)
      (calls_made (transactions_for_account lib request) w)
  ∧ Forall (λ ev, of_kinds [AuthObject; RawCall] ev = true)
      (calls_made (raw_request lib request) w)
  ∧ Forall (λ ev, of_kinds [StoreWrite; AuthObject] ev = true)
      (calls_made (setup lib request) w)
  ∧ Forall (λ ev, of_kinds [AuthObject; CodeExchange] ev = true)
      (calls_made (setup_callback lib request) w).
Proof.
  split; [|repeat split; apply calls_only_calls_made].
  - unfold calls_made, index, bind, get_handler, ret.
    destruct (negb _); apply drop_all.
  - unfold accounts. calls_only_auto.
  - unfold feed_iten. calls_only_auto.
  - unfold transactions_for_account. calls_only_auto.
  - unfold raw_request. calls_only_auto.
  - unfold setup. calls_only_auto.
  - unfold setup_callback. calls_only_auto.
Qed.

(** ** What escaping guarantees downstream *)

Lemma markup_free_app (s t : string) :
  markup_free (s ++ t) = markup_free s && markup_free t.
Proof.
  induction s as [|c s IH]; simpl; [reflexivity|].
  now rewrite IH, andb_assoc.
Qed.

Lemma escape_char_markup_free (c : ascii) : markup_free (escape_char c) = true.
Proof.
  unfold escape_char.
  destruct (Ascii.eqb c "&") eqn:Hamp; [reflexivity|].
  destruct (Ascii.eqb c ">") eqn:Hgt; [reflexivity|].
  destruct (Ascii.eqb c "<") eqn:Hlt; [reflexivity|].
  destruct (Ascii.eqb c "'") eqn:Hap; [reflexivity|].
  destruct (Ascii.eqb c double_quote) eqn:Hdq; [reflexivity|].
  simpl. unfold is_markup. now rewrite Hgt, Hlt, Hap, Hdq.
Qed.

Lemma escape_markup_free (s : string) : markup_free (escape s) = true.
Proof.
  induction s as [|c s IH]; simpl; [reflexivity|].
  now rewrite markup_free_app, escape_char_markup_free, IH.
Qed.

(** Every entry of the feed item's parameters is an escaped text. *)
Lemma feed_parameters_escaped (request : Request) (title key v : string) :
  feed_parameters request title !! key = Some v → ∃ x, v = escape x.
Proof.
  unfold feed_parameters. rewrite add_optional_loop_lookup.
  destruct (bool_decide _); [destruct (form request !! key) as [x|]|].
  - intros [= <-]. eauto.
  - intros [_ <-]%lookup_singleton_Some. eauto.
  - intros [_ <-]%lookup_singleton_Some. eauto.
Qed.

Lemma feed_parameters_markup_free (request : Request) (title : string) :
  map_Forall (λ _ v, markup_free v = true) (feed_parameters request title).
Proof.
  intros key v [x ->]%feed_parameters_escaped. apply escape_markup_free.
Qed.

Lemma escaped_option_markup_free (o : option string) :
  from_option markup_free true (escape <$> o) = true.
Proof. destruct o; simpl; [apply escape_markup_free|reflexivity]. Qed.

Ltac no_markup_leaf :=
  cbn [carries_no_markup];
  rewrite ?escape_markup_free, ?escaped_option_markup_free, ?andb_true_l;
  try reflexivity;
  try (apply bool_decide_eq_true_2, feed_parameters_markup_free).

(** X2. Whatever the request, the text that [setup] writes to the
    credential store, the account id that [transactions_for_account] hands
    to [Transaction.fetch], and the account id, URL and every parameter that
    [feed_iten] hands to [FeedItem.create] contain none of the characters
    [<], [>], ['] and the double quote. *)
Theorem handlers_hand_on_no_markup (lib : Library) (request : Request) (w : World) :
  Forall (λ ev, carries_no_markup ev = true) (calls_made (setup lib request) w)
  ∧ Forall (λ ev, carries_no_markup ev = true)
      (calls_made (transactions_for_account lib request) w)
  ∧ Forall (λ ev, carries_no_markup ev = true)
      (calls_made (feed_iten lib request) w).
Proof.
  repeat split; apply calls_only_calls_made.
  - unfold setup. calls_only_by no_markup_leaf.
  - unfold transactions_for_account. calls_only_by no_markup_leaf.
  - unfold feed_iten. calls_only_by no_markup_leaf.
Qed.

Lemma escape_char_spec (c : ascii) :
  c = "&"%char ∨ c = ">"%char ∨ c = "<"%char ∨ c = "'"%char ∨ c = double_quote
  ∨ (escape_char c = String c "" ∧ c ≠ "&"%char).
Proof.
  unfold escape_char.
  destruct (Ascii.eqb_spec c "&"); [tauto|].
  destruct (Ascii.eqb_spec c ">"); [tauto|].
  destruct (Ascii.eqb_spec c "<"); [tauto|].
  destruct (Ascii.eqb_spec c "'"); [tauto|].
  destruct (Ascii.eqb_spec c double_quote); tauto.
Qed.

(** No two texts have the same escaped form. *)
Lemma escape_inj (s t : string) : escape s = escape t → s = t.
Proof.
  revert t. induction s as [|c s IH]; intros [|d t] Heq.
  - reflexivity.
  - symmetry in Heq. apply (proj1 (escape_empty_iff (String d t))) in Heq.
    discriminate.
  - apply (proj1 (escape_empty_iff (String c s))) in Heq. discriminate.
  - simpl in Heq.
    destruct (escape_char_spec c) as [->|[->|[->|[->|[->|[Hc Hcne]]]]]];
      destruct (escape_char_spec d) as [->|[->|[->|[->|[->|[Hd Hdne]]]]]];
      rewrite ?Hc, ?Hd in Heq; vm_compute escape_char in Heq;
      cbn [String.append] in Heq;
      try discriminate;
      try (injection Heq as Heq; f_equal; now apply IH);
      try (injection Heq as Hhead Heq; congruence).
    injection Heq as -> Heq. f_equal. now apply IH.
Qed.

(** ** [/transactions], read backwards *)

Lemma transactions_fetch_inv (lib : Library) (request : Request) (w : World)
    (auth : Authentication.t) (x : string) (since : Z) (expand : list string) :
  EvTransactionFetch auth x since expand
    ∈ calls_made (transactions_for_account lib request) w →
  ∃ a,
    form request !! "account" = Some a
    ∧ a ≠ "" ∧ a ≠ "Please Select"
    ∧ x = escape a
    ∧ since = now lib - timedelta_days 30
    ∧ expand = ["merchant"].
Proof.
  intros Hin.
  destruct (form request !! "account") as [a|] eqn:Ha.
  - destruct (decide (a = "")) as [->|Hne];
      [|destruct (decide (a = "Please Select")) as [->|Hsel]].
    + rewrite (calls_made_unchanged _ _ _
                 (transactions_without_account lib request w (or_intror (or_introl Ha))))
        in Hin.
      now apply elem_of_nil in Hin.
    + rewrite (calls_made_unchanged _ _ _
                 (transactions_without_account lib request w (or_intror (or_intror Ha))))
        in Hin.
      now apply elem_of_nil in Hin.
    + exists a. unfold calls_made in Hin.
      rewrite (transactions_with_account lib request w a Ha Hne Hsel) in Hin.
      cbn [snd trace] in Hin. rewrite drop_app_length in Hin.
      apply elem_of_cons in Hin as [Hin|Hin]; [discriminate|].
      apply list_elem_of_singleton in Hin. injection Hin as _ -> -> ->.
      auto 10.
  - rewrite (calls_made_unchanged _ _ _
               (transactions_without_account lib request w (or_introl Ha)))
      in Hin.
    now apply elem_of_nil in Hin.
Qed.

(** X3. Escaping never conflates two accounts: when two requests to
    [/transactions] (under any libraries, from any worlds) both lead to a
    [Transaction.fetch] for the same account id, they submitted the same
    [account] field. *)
Theorem transactions_same_id_same_account (lib lib' : Library)
    (request request' : Request) (w w' : World) (auth auth' : Authentication.t)
    (x : string) (since since' : Z) (expand expand' : list string) :
  EvTransactionFetch auth x since expand
    ∈ calls_made (transactions_for_account lib request) w →
  EvTransactionFetch auth' x since' expand'
    ∈ calls_made (transactions_for_account lib' request') w' →
  form request !! "account" = form request' !! "account".
Proof.
  intros (a & Ha & _ & _ & Hx & _)%transactions_fetch_inv
         (a' & Ha' & _ & _ & Hx' & _)%transactions_fetch_inv.
  rewrite Ha, Ha'. f_equal. apply escape_inj. congruence.
Qed.

Lemma transactions_same_id_same_account_witness :
  form ampersand_account_request !! "account"
  = form ampersand_account_with_more_request !! "account".
Proof.
  apply (transactions_same_id_same_account friendly calls_denied
           ampersand_account_request ampersand_account_with_more_request
           configured_world fresh_world
           (stored_auth configured_handler) (stored_auth FileSystem.empty)
           "acc&amp;1"
           (now friendly - timedelta_days 30) (now calls_denied - timedelta_days 30)
           ["merchant"] ["merchant"]).
  - vm_compute. apply list_elem_of_further, list_elem_of_here.
  - vm_compute. apply list_elem_of_further, list_elem_of_here.
Defined.

(** ** [auth_setup] *)

(** X4. [auth_setup] builds exactly one authentication object and leaves
    the credential handler as it was.  The object's tokens and expiry are
    the stored ones and its redirect URL is the fixed callback URL; its
    client id is the argument when one is given and is not empty, and the
    stored client id otherwise (an explicit empty string falls back like a
    missing argument); likewise for the client secret. *)
Theorem auth_setup_fallbacks (client_id client_secret : option string) (w : World) :
  let h := MONZO_HANDLER w in
  ∃ auth,
    auth_setup client_id client_secret w
    = (Ok auth,
       {| MONZO_HANDLER := h; trace := (trace w ++ [EvAuthentication auth])%list |})
    ∧ Authentication.client_id auth
      = match client_id with
        | Some (String c rest) => String c rest
        | Some "" | None => FileSystem.client_id h
        end
    ∧ Authentication.client_secret auth
      = match client_secret with
        | Some (String c rest) => String c rest
        | Some "" | None => FileSystem.client_secret h
        end
    ∧ Authentication.access_token auth = FileSystem.access_token h
    ∧ Authentication.access_token_expiry auth = FileSystem.expiry h
    ∧ Authentication.refresh_token auth = FileSystem.refresh_token h
    ∧ Authentication.redirect_url auth = "http://127.0.0.1:5000/setup/callback".
Proof.
  intros h. subst h.
  destruct client_id as [[|c rest]|], client_secret as [[|c' rest']|];
    (eexists; split;
      [unfold auth_setup, falsy_arg; run_monad; cbn; reflexivity|repeat split]).
Qed.

(** ** [/accounts] and the form of [/feed_item] *)

(** The world after the listing with which [accounts] and [feed_iten]
    start. *)
Lemma listing_stage (lib : Library) (w : World) (all_accounts : bool) :
  let auth := stored_auth (MONZO_HANDLER w) in
  let answer := account_fetch lib auth (MONZO_HANDLER w) in
  bind (auth_setup None None) (λ auth, fetch_accounts lib auth all_accounts) w
  = (match fst answer with
     | Ok account_list =>
         Ok (if all_accounts then account_list
             else filter shows_transactions account_list)
     | Raise e => Raise e
     end,
     {| MONZO_HANDLER := snd answer;
        trace := (trace w ++ [EvAuthentication auth; EvAccountFetch auth])%list |}).
Proof.
  simpl. unfold bind at 1. rewrite auth_setup_run. run_monad.
  cbn [MONZO_HANDLER trace].
  destruct (account_fetch _ _ _) as [[l|e] h1]; cbn [fst snd];
    rewrite <- app_assoc; [|reflexivity].
  destruct all_accounts; cbn [negb]; [reflexivity|].
  now rewrite (select_loop_filter l []).
Qed.

(** X5. [/accounts] on an unconfigured viewer redirects to [/setup/]
    and touches nothing.  On a configured viewer it builds the
    authentication object from the stored credentials, lists the accounts
    once and, when the listing succeeds, shows the provider's list as it is,
    loan accounts included; the credential handler is left as the library
    left it. *)
Theorem accounts_page (lib : Library) (request : Request) (w : World) :
  let h := MONZO_HANDLER w in
  (FileSystem.is_configured h = false →
   accounts lib request w = (Ok (Redirect "/setup/"), w))
  ∧ (∀ account_list h',
       FileSystem.is_configured h = true →
       account_fetch lib (stored_auth h) h = (Ok account_list, h') →
       accounts lib request w
       = (Ok (Render "accounts.html" {[ "accounts" := CAccounts account_list ]}),
          {| MONZO_HANDLER := h';
             trace := (trace w ++ [EvAuthentication (stored_auth h);
                                   EvAccountFetch (stored_auth h)])%list |})).
Proof.
  intros h. subst h. split.
  - intros Hconf. unfold accounts. run_monad. now rewrite Hconf.
  - intros account_list h' Hconf Hfetch.
    unfold accounts. run_monad. rewrite Hconf. cbn [negb].
    rewrite auth_setup_run. cbn beta iota. cbn [MONZO_HANDLER trace].
    rewrite Hfetch. cbn beta iota. now rewrite <- app_assoc.
Qed.

Lemma accounts_page_witness :
  accounts friendly (get_with []) fresh_world = (Ok (Redirect "/setup/"), fresh_world)
  ∧ accounts friendly (get_with []) configured_world
    = (Ok (Render "accounts.html"
             {[ "accounts" :=
                  CAccounts [current_account; flex_account; loan_account;
                             joint_account] ]}),
       {| MONZO_HANDLER := configured_handler;
          trace := [EvAuthentication (stored_auth configured_handler);
                    EvAccountFetch (stored_auth configured_handler)] |}).
Proof.
  split.
  - apply (proj1 (accounts_page friendly (get_with []) fresh_world)). reflexivity.
  - apply (proj2 (accounts_page friendly (get_with []) configured_world)
             [current_account; flex_account; loan_account; joint_account]
             configured_handler);
      reflexivity.
Defined.

Lemma feed_iten_start (lib : Library) (request : Request) (w : World) :
  feed_iten lib request w
  = bind (bind (auth_setup None None) (λ auth, fetch_accounts lib auth false))
      (λ account_list,
         let context : gmap string ContextValue :=
           {[ "accounts" := CAccounts account_list ]} in
         if is_GET (method request) then ret (Render "feed_item_form.html" context)
         else
           title <- form_item request "title" ;;
           let parameters := feed_parameters request title in
           account_field <- form_item request "account" ;;
           let account := escape account_field in
           let feed_item_url := escape <$> (form request !! "feed_item_url") in
           auth <- auth_setup None None ;;
           rendered <-
             try_except
               (FeedItem_create lib auth account "basic" parameters feed_item_url ;;;
                ret ("message.html",
                     <["message" := CStr "Feed item posted successfully."]> context))
               (fun e =>
                  match e with
                  | Monzo MonzoHTTPError =>
                      Some (ret ("error.html",
                        <["message" := CStr "The Monzo API did not understand the request."]> context))
                  | Monzo MonzoPermissionsError =>
                      Some (ret ("error.html",
                        <["message" := CStr "The request resulted in a permissions error."]> context))
                  | _ => None
                  end) ;;
           let '(template_name, context) := rendered in
           ret (Render template_name context)) w.
Proof. unfold feed_iten. now rewrite bind_assoc. Qed.

(** The world once [feed_iten] has listed the accounts. *)
Lemma feed_iten_listing_fails (lib : Library) (request : Request) (w : World)
    (e : exn) (h1 : FileSystem.t) :
  let auth := stored_auth (MONZO_HANDLER w) in
  account_fetch lib auth (MONZO_HANDLER w) = (Raise e, h1) →
  feed_iten lib request w
  = (Raise e,
     {| MONZO_HANDLER := h1;
        trace := (trace w ++ [EvAuthentication auth; EvAccountFetch auth])%list |}).
Proof.
  simpl. intros Hfetch. rewrite feed_iten_start. unfold bind at 1.
  rewrite listing_stage. cbn zeta. now rewrite Hfetch.
Qed.

Lemma feed_iten_early_exit (lib : Library) (request : Request) (w : World)
    (account_list : list Account) (h1 : FileSystem.t) :
  let auth := stored_auth (MONZO_HANDLER w) in
  let w1 := {| MONZO_HANDLER := h1;
               trace := (trace w ++ [EvAuthentication auth; EvAccountFetch auth])%list |} in
  account_fetch lib auth (MONZO_HANDLER w) = (Ok account_list, h1) →
  (is_GET (method request) = true →
   feed_iten lib request w
   = (Ok (Render "feed_item_form.html"
            {[ "accounts" := CAccounts (filter shows_transactions account_list) ]}),
      w1))
  ∧ (is_GET (method request) = false →
     form request !! "title" = None →
     feed_iten lib request w = (Raise (BadRequestKeyError "title"), w1))
  ∧ (is_GET (method request) = false →
     is_Some (form request !! "title") →
     form request !! "account" = None →
     feed_iten lib request w = (Raise (BadRequestKeyError "account"), w1)).
Proof.
  simpl. intros Hfetch.
  assert (Hstart : ∀ k : list Account → M Response,
             bind (bind (auth_setup None None)
                     (λ auth, fetch_accounts lib auth false)) k w
             = k (filter shows_transactions account_list)
                 {| MONZO_HANDLER := h1;
                    trace := (trace w ++
                              [EvAuthentication (stored_auth (MONZO_HANDLER w));
                               EvAccountFetch (stored_auth (MONZO_HANDLER w))])%list |}).
  { intros k. unfold bind at 1. rewrite listing_stage. cbn zeta.
    now rewrite Hfetch. }
  repeat split.
  - intros Hget. rewrite feed_iten_start, Hstart. cbn zeta. now rewrite Hget.
  - intros Hget Ht. rewrite feed_iten_start, Hstart. cbn zeta. rewrite Hget.
    unfold bind at 1, form_item. now rewrite Ht.
  - intros Hget [t Ht] Ha. rewrite feed_iten_start, Hstart. cbn zeta. rewrite Hget.
    unfold bind at 1, form_item at 1. rewrite Ht. cbn beta iota.
    unfold ret at 1. cbn beta iota.
    unfold bind at 1, form_item. now rewrite Ha.
Qed.

(** ** [/feed_item] *)

(** X6. A GET to [/feed_item] builds the authentication object, lists the
    accounts once and shows the form with the provider's accounts minus
    those of type "Loan (Flex)" and "Loan", in the provider's order; no feed
    item is created and nothing of the form or the query string is looked
    at.  Unlike [/accounts] the handler does not ask whether the viewer is
    configured. *)
Theorem feed_item_get_shows_form (lib : Library) (request : Request) (w : World)
    (account_list : list Account) (h1 : FileSystem.t) :
  method request = GET →
  account_fetch lib (stored_auth (MONZO_HANDLER w)) (MONZO_HANDLER w)
    = (Ok account_list, h1) →
  feed_iten lib request w
  = (Ok (Render "feed_item_form.html"
           {[ "accounts" :=
                CAccounts (filter (λ a, account_type a ≠ "Loan (Flex)"
                                        ∧ account_type a ≠ "Loan") account_list) ]}),
     {| MONZO_HANDLER := h1;
        trace := (trace w ++ [EvAuthentication (stored_auth (MONZO_HANDLER w));
                              EvAccountFetch (stored_auth (MONZO_HANDLER w))])%list |}).
Proof.
  intros Hm Hfetch.
  apply (proj1 (feed_iten_early_exit lib request w account_list h1 Hfetch)).
  now rewrite Hm.
Qed.

Lemma feed_item_get_shows_form_witness :
  feed_iten friendly
    {| method := GET; form := form feed_request; args := ∅ |} fresh_world
  = (Ok (Render "feed_item_form.html"
           {[ "accounts" := CAccounts [current_account; joint_account] ]}),
     {| MONZO_HANDLER := FileSystem.empty;
        trace := [EvAuthentication (stored_auth FileSystem.empty);
                  EvAccountFetch (stored_auth FileSystem.empty)] |}).
Proof.
  apply (feed_item_get_shows_form friendly
           {| method := GET; form := form feed_request; args := ∅ |} fresh_world
           [current_account; flex_account; loan_account; joint_account]
           FileSystem.empty);
    reflexivity.
Defined.

(** X7. [feed_iten] lists the accounts outside any [try]: whatever the
    listing raises, a permissions error included, leaves the handler as
    that exception, for GET and POST alike, after the one listing call and
    before any form field is read; no feed item is created. *)
Theorem feed_item_listing_error_propagates (lib : Library) (request : Request)
    (w : World) (e : exn) (h1 : FileSystem.t) :
  account_fetch lib (stored_auth (MONZO_HANDLER w)) (MONZO_HANDLER w)
    = (Raise e, h1) →
  fst (feed_iten lib request w) = Raise e
  ∧ calls_made (feed_iten lib request) w
    = [EvAuthentication (stored_auth (MONZO_HANDLER w));
       EvAccountFetch (stored_auth (MONZO_HANDLER w))].
Proof.
  intros Hfetch. unfold calls_made.
  rewrite (feed_iten_listing_fails lib request w e h1 Hfetch).
  split; [reflexivity|]. cbn [snd trace]. apply drop_app_length.
Qed.

Lemma feed_item_listing_error_propagates_witness :
  fst (feed_iten listing_denied feed_request configured_world)
    = Raise (Monzo MonzoPermissionsError)
  ∧ calls_made (feed_iten listing_denied feed_request) configured_world
    = [EvAuthentication (stored_auth configured_handler);
       EvAccountFetch (stored_auth configured_handler)].
Proof.
  apply (feed_item_listing_error_propagates listing_denied feed_request
           configured_world (Monzo MonzoPermissionsError) configured_handler).
  reflexivity.
Defined.

(** X8. A POST to [/feed_item] without a [title] field stops with
    Werkzeug's missing-key error for [title]; one with a title but without
    an [account] field stops with the error for [account].  By then the
    accounts have been listed, and no feed item is created. *)
Theorem feed_item_requires_title_and_account (lib : Library) (request : Request)
    (w : World) (account_list : list Account) (h1 : FileSystem.t) :
  method request = POST →
  account_fetch lib (stored_auth (MONZO_HANDLER w)) (MONZO_HANDLER w)
    = (Ok account_list, h1) →
  form request !! "title" = None ∨ form request !! "account" = None →
  fst (feed_iten lib request w)
  = Raise (BadRequestKeyError
             (if form request !! "title" is None then "title" else "account"))
  ∧ calls_made (feed_iten lib request) w
    = [EvAuthentication (stored_auth (MONZO_HANDLER w));
       EvAccountFetch (stored_auth (MONZO_HANDLER w))].
Proof.
  intros Hm Hfetch Hmissing.
  pose proof (post_is_not_GET request Hm) as Hget.
  destruct (feed_iten_early_exit lib request w account_list h1 Hfetch)
    as (_ & Hno_title & Hno_account).
  unfold calls_made.
  destruct (form request !! "title") as [t|] eqn:Ht.
  - destruct Hmissing as [?|Ha]; [discriminate|].
    rewrite (Hno_account Hget (mk_is_Some _ _ eq_refl) Ha).
    split; [reflexivity|]. cbn [snd trace]. apply drop_app_length.
  - rewrite (Hno_title Hget eq_refl).
    split; [reflexivity|]. cbn [snd trace]. apply drop_app_length.
Qed.

Lemma feed_item_requires_title_and_account_witness :
  (fst (feed_iten friendly account_request configured_world)
     = Raise (BadRequestKeyError "title")
   ∧ calls_made (feed_iten friendly account_request) configured_world
     = [EvAuthentication (stored_auth configured_handler);
        EvAccountFetch (stored_auth configured_handler)])
  ∧ (fst (feed_iten friendly title_only_request configured_world)
       = Raise (BadRequestKeyError "account")
     ∧ calls_made (feed_iten friendly title_only_request) configured_world
       = [EvAuthentication (stored_auth configured_handler);
          EvAccountFetch (stored_auth configured_handler)]).
Proof.
  split.
  - apply (feed_item_requires_title_and_account friendly account_request
             configured_world
             [current_account; flex_account; loan_account; joint_account]
             configured_handler);
      [reflexivity | reflexivity | left; vm_compute; reflexivity].
  - apply (feed_item_requires_title_and_account friendly title_only_request
             configured_world
             [current_account; flex_account; loan_account; joint_account]
             configured_handler);
      [reflexivity | reflexivity | right; vm_compute; reflexivity].
Defined.

(** X9. A feed item is created only by a request that is not a GET and
    carries both [title] and [account], after the listing has succeeded;
    then it is the fourth and last call of the run, of type "basic", made
    with a second authentication object built from the handler as the
    listing left it, for the escaped account, with the parameters collected
    from the form and the escaped [feed_item_url] if one was submitted. *)
Theorem feed_item_created_only_from_complete_post (lib : Library)
    (request : Request) (w : World) (auth : Authentication.t)
    (account feed_type : string) (params : gmap string string)
    (url : option string) :
  EvFeedItemCreate auth account feed_type params url
    ∈ calls_made (feed_iten lib request) w →
  is_GET (method request) = false
  ∧ feed_type = "basic"
  ∧ ∃ account_list h1 t a,
      account_fetch lib (stored_auth (MONZO_HANDLER w)) (MONZO_HANDLER w)
        = (Ok account_list, h1)
      ∧ form request !! "title" = Some t
      ∧ form request !! "account" = Some a
      ∧ auth = stored_auth h1
      ∧ account = escape a
      ∧ params = feed_parameters request t
      ∧ url = escape <$> form request !! "feed_item_url"
      ∧ calls_made (feed_iten lib request) w
        = [EvAuthentication (stored_auth (MONZO_HANDLER w));
           EvAccountFetch (stored_auth (MONZO_HANDLER w));
           EvAuthentication auth;
           EvFeedItemCreate auth account feed_type params url].
Proof.
  unfold calls_made. intros Hin.
  destruct (account_fetch lib (stored_auth (MONZO_HANDLER w)) (MONZO_HANDLER w))
    as [[account_list|e] h1] eqn:Hfetch.
  - destruct (feed_iten_early_exit lib request w account_list h1 Hfetch)
      as (Hform & Hno_title & Hno_account).
    destruct (is_GET (method request)) eqn:Hget.
    { rewrite (Hform eq_refl) in Hin. cbn [snd trace] in Hin.
      rewrite drop_app_length in Hin.
      rewrite !elem_of_cons in Hin. destruct Hin as [?|[?|Hin]]; try discriminate.
      now apply elem_of_nil in Hin. }
    destruct (form request !! "title") as [t|] eqn:Ht.
    2: { rewrite (Hno_title eq_refl eq_refl) in Hin. cbn [snd trace] in Hin.
         rewrite drop_app_length in Hin.
         rewrite !elem_of_cons in Hin. destruct Hin as [?|[?|Hin]]; try discriminate.
         now apply elem_of_nil in Hin. }
    destruct (form request !! "account") as [a|] eqn:Ha.
    2: { rewrite (Hno_account eq_refl (mk_is_Some _ _ eq_refl) eq_refl) in Hin.
         cbn [snd trace] in Hin. rewrite drop_app_length in Hin.
         rewrite !elem_of_cons in Hin. destruct Hin as [?|[?|Hin]]; try discriminate.
         now apply elem_of_nil in Hin. }
    rewrite (feed_iten_post lib request w account_list h1 t a Hget Hfetch Ht Ha)
      in Hin |- *.
    cbn [snd trace] in Hin |- *. rewrite drop_app_length in Hin |- *.
    rewrite !elem_of_cons in Hin.
    destruct Hin as [?|[?|[?|[Hin|Hin]]]]; try discriminate;
      [|now apply elem_of_nil in Hin].
    injection Hin as -> -> -> -> ->.
    split; [reflexivity|]. split; [reflexivity|].
    exists account_list, h1, t, a. repeat split; reflexivity.
  - rewrite (feed_iten_listing_fails lib request w e h1 Hfetch) in Hin.
    cbn [snd trace] in Hin. rewrite drop_app_length in Hin.
    rewrite !elem_of_cons in Hin. destruct Hin as [?|[?|Hin]]; try discriminate.
    now apply elem_of_nil in Hin.
Qed.

Lemma feed_item_created_only_from_complete_post_witness :
  is_GET (method feed_request) = false
  ∧ ∃ t a,
      form feed_request !! "title" = Some t
      ∧ form feed_request !! "account" = Some a
      ∧ "acc_1" = escape a.
Proof.
  destruct (feed_item_created_only_from_complete_post friendly feed_request
              configured_world (stored_auth configured_handler) "acc_1" "basic"
              (feed_parameters feed_request "<b>Hi</b>")
              (Some "https://example.org/?a=1&amp;b=2"))
    as (Hget & _ & _ & _ & t & a & _ & Ht & Ha & _ & Hacc & _).
  - unfold calls_made.
    rewrite (feed_iten_post friendly feed_request configured_world
               [current_account; flex_account; loan_account; joint_account]
               configured_handler "<b>Hi</b>" "acc_1"
               eq_refl eq_refl eq_refl eq_refl).
    cbn [snd trace configured_world app drop length].
    do 3 apply list_elem_of_further. apply list_elem_of_here.
  - split; [exact Hget|]. exists t, a. auto.
Defined.

(** ** What a handler reads of the request *)

Lemma feed_parameters_same_fields (request request' : Request) (title : string) :
  (∀ key, key ∈ optional_parameters → form request' !! key = form request !! key) →
  feed_parameters request' title = feed_parameters request title.
Proof.
  intros Hsame. apply map_eq. intros key. unfold feed_parameters.
  rewrite !add_optional_loop_lookup.
  destruct (decide (key ∈ optional_parameters)) as [Hin|Hnin].
  - rewrite !bool_decide_eq_true_2 by assumption. now rewrite Hsame.
  - now rewrite !bool_decide_eq_false_2 by assumption.
Qed.

(** X10. A handler's run depends on the request only through the inputs
    its code names.  [index] and [accounts] ignore the request altogether;
    [transactions_for_account] reads the form field [account] and nothing
    else (not even the HTTP method); [setup_callback] reads the query
    parameters [code] and [state] only; [setup], [raw_request] and
    [feed_iten] read their own form fields, and of the HTTP method only
    whether it is GET, so that a HEAD request is handled as a POST. *)
Theorem handlers_read_only_their_inputs (lib : Library)
    (request request' : Request) (w : World) :
  index request' w = index request w
  ∧ accounts lib request' w = accounts lib request w
  ∧ (form request' !! "account" = form request !! "account" →
     transactions_for_account lib request' w = transactions_for_account lib request w)
  ∧ ((∀ key, key ∈ ["code"; "state"] → args request' !! key = args request !! key) →
     setup_callback lib request' w = setup_callback lib request w)
  ∧ (is_GET (method request') = is_GET (method request) →
     ((∀ key, key ∈ ["client_id"; "client_secret"] →
         form request' !! key = form request !! key) →
      setup lib request' w = setup lib request w)
     ∧ ((∀ key, key ∈ ["authenticated"; "headers"; "parameters"; "path"] →
           form request' !! key = form request !! key) →
        raw_request lib request' w = raw_request lib request w)
     ∧ ((∀ key, key ∈ ["title"; "account"; "feed_item_url"; "body"; "title_color";
                       "body_color"; "background_color"; "image_url"] →
           form request' !! key = form request !! key) →
        feed_iten lib request' w = feed_iten lib request w)).
Proof.
  split; [reflexivity|]. split; [reflexivity|]. split; [|split].
  - intros Ha. unfold transactions_for_account. now rewrite Ha.
  - intros Hsame.
    assert (Hc := Hsame "code"). assert (Hs := Hsame "state").
    unfold setup_callback, args_has, args_item.
    rewrite Hc, Hs by (rewrite !elem_of_cons; tauto). reflexivity.
  - intros Hm. split; [|split]; intros Hsame.
    + assert (Hc := Hsame "client_id"). assert (Hs := Hsame "client_secret").
      unfold setup, form_item.
      rewrite Hm, Hc, Hs by (rewrite !elem_of_cons; tauto). reflexivity.
    + assert (Ha := Hsame "authenticated"). assert (Hh := Hsame "headers").
      assert (Hp := Hsame "parameters"). assert (Hq := Hsame "path").
      unfold raw_request, form_get_or_list.
      rewrite Hm, Ha, Hh, Hp, Hq by (rewrite !elem_of_cons; tauto). reflexivity.
    + assert (Ht := Hsame "title"). assert (Ha := Hsame "account").
      assert (Hu := Hsame "feed_item_url").
      assert (Hopt : ∀ key, key ∈ optional_parameters →
                form request' !! key = form request !! key).
      { intros key Hin. apply Hsame. unfold optional_parameters in Hin.
        rewrite !elem_of_cons in *. tauto. }
      unfold feed_iten, bind, form_item.
      rewrite Hm, Ht, Ha, Hu by (rewrite !elem_of_cons; tauto).
      destruct (auth_setup None None w) as [[auth|e] w1]; [|reflexivity].
      destruct (fetch_accounts lib auth false w1) as [[l|e] w2]; [|reflexivity].
      destruct (is_GET (method request)); [reflexivity|].
      destruct (form request !! "title") as [t|]; [|reflexivity].
      unfold ret at 1 3. cbn beta iota.
      now rewrite (feed_parameters_same_fields request request' t Hopt).
Qed.

Lemma handlers_read_only_their_inputs_witness :
  transactions_for_account friendly ampersand_account_with_more_request
    configured_world
  = transactions_for_account friendly ampersand_account_request configured_world
  ∧ raw_request friendly head_with_query_request configured_world
    = raw_request friendly put_request configured_world.
Proof.
  split.
  - apply (proj1 (proj2 (proj2 (handlers_read_only_their_inputs friendly
             ampersand_account_request ampersand_account_with_more_request
             configured_world)))).
    vm_compute; reflexivity.
  - apply (proj1 (proj2 (proj2 (proj2 (proj2 (proj2
             (handlers_read_only_their_inputs friendly put_request
                head_with_query_request configured_world)))) eq_refl))).
    intros key Hin. rewrite !elem_of_cons in Hin.
    destruct Hin as [->|[->|[->|[->|Hin]]]];
      [vm_compute; reflexivity..|now apply elem_of_nil in Hin].
Defined.

(** ** [/raw_request]: when the fields are decoded *)

(** X11. [raw_request] decodes JSON only on a request that is not a GET:
    a GET shows the form after building the authentication object, whatever
    the form holds.  On a POST a [parameters] field holding the empty text
    is not decoded and counts as the empty parameter set; a non-empty
    [parameters] text that [json.loads] rejects, with headers that decode,
    stops the handler with the decoding error for that text after the
    authentication object has been built and before any provider call. *)
Theorem raw_request_decoding_edges (lib : Library) (request : Request) (w : World) :
  let auth := stored_auth (MONZO_HANDLER w) in
  (method request = GET →
   raw_request lib request w
   = (Ok (Render "raw_request.html" ∅),
      {| MONZO_HANDLER := MONZO_HANDLER w;
         trace := (trace w ++ [EvAuthentication auth])%list |}))
  ∧ (method request = POST →
     form request !! "parameters" = Some "" →
     ∀ headers,
       decoded_headers lib request = Some headers →
       ∃ path flag m,
         calls_made (raw_request lib request) w
         = [EvAuthentication auth; EvMakeRequest auth path flag m (JObj []) headers])
  ∧ (method request = POST →
     ∀ v headers,
       form request !! "parameters" = Some v →
       v ≠ "" →
       loads lib v = None →
       decoded_headers lib request = Some headers →
       fst (raw_request lib request w) = Raise (JSONDecodeError v)
       ∧ calls_made (raw_request lib request) w = [EvAuthentication auth]).
Proof.
  intros auth. subst auth. split; [|split].
  - intros Hm. unfold raw_request. unfold bind at 1.
    now rewrite auth_setup_run, Hm.
  - intros Hm Hp headers Hh.
    pose proof (raw_request_post_calls lib request w (post_is_not_GET _ Hm)) as Hcalls.
    assert (Hdp : decoded_parameters lib request = Some (JObj []))
      by (unfold decoded_parameters; now rewrite Hp).
    rewrite Hh, Hdp in Hcalls. eauto.
  - intros Hm v headers Hp Hne Hbad Hh.
    pose proof (post_is_not_GET _ Hm) as Hget.
    apply truthy_true_iff in Hne. split.
    + unfold decoded_headers in Hh. unfold raw_request. run_monad.
      rewrite auth_setup_run, Hget, Hp, Hne, Hbad.
      destruct (form request !! "headers") as [hd|];
        [destruct (loads lib hd); [reflexivity|discriminate]|reflexivity].
    + rewrite (raw_request_post_calls lib request w Hget).
      assert (Hdp : decoded_parameters lib request = None)
        by (unfold decoded_parameters; now rewrite Hp, Hne).
      now rewrite Hh, Hdp.
Qed.

Lemma raw_request_decoding_edges_witness :
  raw_request friendly get_with_bad_headers_request configured_world
  = (Ok (Render "raw_request.html" ∅),
     {| MONZO_HANDLER := configured_handler;
        trace := [EvAuthentication (stored_auth configured_handler)] |})
  ∧ (∃ path flag m,
       calls_made (raw_request friendly empty_parameters_request) configured_world
       = [EvAuthentication (stored_auth configured_handler);
          EvMakeRequest (stored_auth configured_handler) path flag m
            (JObj []) (JObj [])])
  ∧ (fst (raw_request friendly bad_parameters_request configured_world)
       = Raise (JSONDecodeError "{not json")
     ∧ calls_made (raw_request friendly bad_parameters_request) configured_world
       = [EvAuthentication (stored_auth configured_handler)]).
Proof.
  split; [|split].
  - apply (proj1 (raw_request_decoding_edges friendly get_with_bad_headers_request
                    configured_world)).
    reflexivity.
  - apply (proj1 (proj2 (raw_request_decoding_edges friendly
                    empty_parameters_request configured_world)));
      vm_compute; reflexivity.
  - apply (proj2 (proj2 (raw_request_decoding_edges friendly
                    bad_parameters_request configured_world))
             eq_refl "{not json" (JObj []));
      [vm_compute; reflexivity | discriminate | reflexivity | vm_compute; reflexivity].
Defined.

(** ** [get_raw_request] *)

(** X12. [get_raw_request] makes exactly one request, with [parameters] as
    its data and [headers] as its headers, and leaves the credential handler
    as the library left it.  It returns the data of a successful answer as
    it is, answers a permissions error and an HTTP error with a message
    dictionary of its own, so that it never raises either of the two, and
    lets every other exception through. *)
Theorem get_raw_request_substitutes_messages (lib : Library)
    (auth : Authentication.t) (path request_type : form_value)
    (authenticated : bool) (headers parameters : json) (w : World) :
  let answer :=
    make_request lib auth path authenticated request_type parameters headers
      (MONZO_HANDLER w) in
  let run :=
    get_raw_request lib auth path authenticated request_type headers parameters w in
  snd run
  = {| MONZO_HANDLER := snd answer;
       trace := (trace w ++ [EvMakeRequest auth path authenticated request_type
                               parameters headers])%list |}
  ∧ fst run ≠ Raise (Monzo MonzoPermissionsError)
  ∧ fst run ≠ Raise (Monzo MonzoHTTPError)
  ∧ (∀ records, fst answer = Ok records → fst run = Ok records)
  ∧ (fst answer = Raise (Monzo MonzoPermissionsError) →
     fst run
     = Ok (JObj [("message", JStr "The request resulted in a permissions error.")]))
  ∧ (fst answer = Raise (Monzo MonzoHTTPError) →
     fst run = Ok (JObj [("message", JStr "The request appears invalid.")]))
  ∧ (∀ e, fst answer = Raise e →
          e ≠ Monzo MonzoPermissionsError → e ≠ Monzo MonzoHTTPError →
          fst run = Raise e).
Proof.
  cbn zeta. unfold get_raw_request, try_except, auth_make_request, library_call, ret.
  destruct (make_request _ _ _ _ _ _ _ _) as [[records|[[]| |]] h'];
    cbn [fst snd]; repeat split; try discriminate; try congruence;
    intros e [= <-]; congruence.
Qed.

Lemma get_raw_request_substitutes_messages_witness :
  fst (get_raw_request calls_rejected (stored_auth configured_handler)
         (PyStr "/accounts") true (PyList ["get"]) (JObj []) (JObj [])
         configured_world)
  = Ok (JObj [("message", JStr "The request appears invalid.")]).
Proof.
  apply (proj1 (proj2 (proj2 (proj2 (proj2 (proj2
           (get_raw_request_substitutes_messages calls_rejected
              (stored_auth configured_handler) (PyStr "/accounts")
              (PyList ["get"]) true (JObj []) (JObj []) configured_world))))))).
  reflexivity.
Defined.

(** ** [/setup/]: when the store is written *)

Lemma setup_get (lib : Library) (request : Request) (w : World) :
  is_GET (method request) = true →
  setup lib request w
  = (Ok (Render "setup.html" {[ "REDIRECT_URL" := CStr REDIRECT_URL ]}), w).
Proof. intros Hm. unfold setup. now rewrite Hm. Qed.

(** X13. Whatever the request, [setup] does one of two things.  Either it
    leaves the world exactly as it was: credential handler untouched, no
    call made (a GET, a missing field, an empty field).  Or the request is
    not a GET and carries a non-empty client id and a non-empty client
    secret, and then the handler receives the escaped forms of the two,
    neither of them empty, in one [set_client_details] call followed by the
    construction of one authentication object.  So [setup] never stores an
    empty client id or secret. *)
Theorem setup_writes_all_or_nothing (lib : Library) (request : Request) (w : World) :
  snd (setup lib request w) = w
  ∨ ∃ c s,
      is_GET (method request) = false
      ∧ form request !! "client_id" = Some c
      ∧ form request !! "client_secret" = Some s
      ∧ c ≠ "" ∧ s ≠ ""
      ∧ escape c ≠ "" ∧ escape s ≠ ""
      ∧ ∃ auth,
          snd (setup lib request w)
          = {| MONZO_HANDLER :=
                 FileSystem.set_client_details (escape c) (escape s) (MONZO_HANDLER w);
               trace := (trace w ++ [EvSetClientDetails (escape c) (escape s);
                                     EvAuthentication auth])%list |}.
Proof.
  destruct (is_GET (method request)) eqn:Hm.
  { left. now rewrite setup_get. }
  destruct (form request !! "client_id") as [c|] eqn:Hc.
  2: { left. destruct (setup_post_missing_field lib request w Hm (or_introl Hc))
         as [key ->]. reflexivity. }
  destruct (form request !! "client_secret") as [s|] eqn:Hs.
  2: { left. destruct (setup_post_missing_field lib request w Hm (or_intror Hs))
         as [key ->]. reflexivity. }
  destruct (decide (c = "")) as [Hce|Hcne].
  { left. now rewrite (setup_post_empty lib request w c s Hm Hc Hs (or_introl Hce)). }
  destruct (decide (s = "")) as [Hse|Hsne].
  { left. now rewrite (setup_post_empty lib request w c s Hm Hc Hs (or_intror Hse)). }
  right. exists c, s. repeat split; try assumption.
  - now rewrite escape_empty_iff.
  - now rewrite escape_empty_iff.
  - eexists. now rewrite (setup_post_filled lib request w c s Hm Hc Hs Hcne Hsne).
Qed.

(** ** [/setup/callback/]: the exchange *)

Lemma setup_callback_world (lib : Library) (request : Request) (w : World)
    (code state : string) :
  args request !! "code" = Some code →
  args request !! "state" = Some state →
  let h := MONZO_HANDLER w in
  let auth :=
    {| Authentication.access_token := None;
       Authentication.access_token_expiry := None;
       Authentication.client_id := FileSystem.client_id h;
       Authentication.client_secret := FileSystem.client_secret h;
       Authentication.redirect_url := REDIRECT_URL;
       Authentication.refresh_token := None |} in
  snd (setup_callback lib request w)
  = {| MONZO_HANDLER := snd (authenticate lib auth code state h);
       trace := (trace w ++ [EvAuthentication auth;
                             EvAuthenticate auth code state])%list |}.
Proof.
  intros Hc Hs. cbn zeta.
  unfold setup_callback, args_has, args_item. rewrite Hc, Hs.
  rewrite !bool_decide_eq_true_2 by eauto.
  run_monad. cbn [andb MONZO_HANDLER trace].
  destruct (authenticate _ _ _ _ _) as [[[]|[[]| |]] h'];
    cbn [fst snd]; now rewrite <- app_assoc.
Qed.

(** X14. A request to [/setup/callback/] that carries [code] and [state]
    builds one authentication object from the stored client id and secret,
    with no tokens, and calls [authenticate] once with the two query values
    as they were sent (they are not escaped).  The credential handler is
    left as the library left it, and when the exchange succeeds the answer
    is the success page with an empty context. *)
Theorem setup_callback_exchange (lib : Library) (request : Request) (w : World)
    (code state : string) :
  args request !! "code" = Some code →
  args request !! "state" = Some state →
  let h := MONZO_HANDLER w in
  let auth :=
    {| Authentication.access_token := None;
       Authentication.access_token_expiry := None;
       Authentication.client_id := FileSystem.client_id h;
       Authentication.client_secret := FileSystem.client_secret h;
       Authentication.redirect_url := "http://127.0.0.1:5000/setup/callback";
       Authentication.refresh_token := None |} in
  let answer := authenticate lib auth code state h in
  snd (setup_callback lib request w)
  = {| MONZO_HANDLER := snd answer;
       trace := (trace w ++ [EvAuthentication auth;
                             EvAuthenticate auth code state])%list |}
  ∧ (fst answer = Ok tt →
     fst (setup_callback lib request w) = Ok (Render "success.html" ∅)).
Proof.
  intros Hc Hs. cbn zeta. split.
  - apply (setup_callback_world lib request w code state Hc Hs).
  - intros Hok. rewrite (setup_callback_run lib request w code state Hc Hs).
    cbn zeta. unfold REDIRECT_URL. now rewrite Hok.
Qed.

Lemma setup_callback_exchange_witness :
  snd (setup_callback friendly callback_request configured_world)
  = {| MONZO_HANDLER := configured_handler;
       trace :=
         [EvAuthentication
            {| Authentication.access_token := None;
               Authentication.access_token_expiry := None;
               Authentication.client_id := "oauth2client_1";
               Authentication.client_secret := "mnzconf.secret";
               Authentication.redirect_url := "http://127.0.0.1:5000/setup/callback";
               Authentication.refresh_token := None |};
          EvAuthenticate
            {| Authentication.access_token := None;
               Authentication.access_token_expiry := None;
               Authentication.client_id := "oauth2client_1";
               Authentication.client_secret := "mnzconf.secret";
               Authentication.redirect_url := "http://127.0.0.1:5000/setup/callback";
               Authentication.refresh_token := None |}
            "abc123" "xyz"] |}
  ∧ fst (setup_callback friendly callback_request configured_world)
    = Ok (Render "success.html" ∅).
Proof.
  destruct (setup_callback_exchange friendly callback_request configured_world
              "abc123" "xyz") as [Hworld Hpage];
    [vm_compute; reflexivity | vm_compute; reflexivity |].
  split; [exact Hworld|]. apply Hpage. reflexivity.
Defined.

(** ** [fetch_accounts]: what the flag changes *)

Lemma filter_all_iff {A} (P : A → Prop) `{!∀ x, Decision (P x)} (l : list A) :
  filter P l = l ↔ Forall P l.
Proof.
  split.
  - intros Hid. apply Forall_forall. intros x Hx.
    rewrite <- Hid in Hx. now apply list_elem_of_filter in Hx.
  - induction 1 as [|x l Hx _ IH]; [reflexivity|].
    rewrite filter_cons, decide_True by assumption. now rewrite IH.
Qed.

(** X15. The flag of [fetch_accounts] changes the returned list and nothing
    else.  With either value the one call made is [Account.fetch], the
    credential handler ends as the library left it, and an exception of the
    listing is passed on unchanged.  When the listing succeeds the short
    list is a sublist of the full one, holds no account of type "Loan
    (Flex)" or "Loan", and equals the full list exactly when the provider
    returned no such account. *)
Theorem fetch_accounts_flag_only_filters (lib : Library) (auth : Authentication.t)
    (w : World) :
  let answer := account_fetch lib auth (MONZO_HANDLER w) in
  (∀ all_accounts,
     snd (fetch_accounts lib auth all_accounts w)
     = {| MONZO_HANDLER := snd answer;
          trace := (trace w ++ [EvAccountFetch auth])%list |})
  ∧ (∀ all_accounts e,
       fst answer = Raise e → fst (fetch_accounts lib auth all_accounts w) = Raise e)
  ∧ (∀ account_list,
       fst answer = Ok account_list →
       fst (fetch_accounts lib auth true w) = Ok account_list
       ∧ ∃ shown,
           fst (fetch_accounts lib auth false w) = Ok shown
           ∧ shown `sublist_of` account_list
           ∧ Forall (λ a, account_type a ≠ "Loan (Flex)" ∧ account_type a ≠ "Loan") shown
           ∧ (shown = account_list
              ↔ Forall (λ a, account_type a ≠ "Loan (Flex)" ∧ account_type a ≠ "Loan")
                  account_list)).
Proof.
  cbn zeta. run_monad.
  destruct (account_fetch lib auth (MONZO_HANDLER w)) as [[l|e] h'];
    cbn [fst snd]; (split; [reflexivity|split]); try discriminate.
  - intros account_list [= <-]. split; [reflexivity|].
    exists (filter shows_transactions l).
    split; [now rewrite (select_loop_filter l [])|].
    split; [apply sublist_filter|].
    split; [|apply (filter_all_iff shows_transactions)].
    apply Forall_forall. intros a Ha. now apply list_elem_of_filter in Ha.
  - intros _ e' [= <-]. reflexivity.
Qed.

Lemma fetch_accounts_flag_only_filters_witness :
  ∃ shown,
    fst (fetch_accounts friendly (stored_auth configured_handler) false
           configured_world) = Ok shown
    ∧ shown `sublist_of` [current_account; flex_account; loan_account; joint_account].
Proof.
  destruct (proj2 (proj2 (fetch_accounts_flag_only_filters friendly
              (stored_auth configured_handler) configured_world))
              [current_account; flex_account; loan_account; joint_account]
              eq_refl)
    as (_ & shown & Hshown & Hsub & _).
  exists shown. split; assumption.
Defined.

(** ** After a successful setup *)

Lemma accounts_calls_when_configured (lib : Library) (request : Request) (w : World) :
  FileSystem.is_configured (MONZO_HANDLER w) = true →
  calls_made (accounts lib request) w
  = [EvAuthentication (stored_auth (MONZO_HANDLER w));
     EvAccountFetch (stored_auth (MONZO_HANDLER w))].
Proof.
  intros Hconf. unfold calls_made, accounts. run_monad. rewrite Hconf. cbn [negb].
  rewrite auth_setup_run. cbn beta iota. cbn [MONZO_HANDLER trace].
  destruct (account_fetch _ _ _) as [[l|[[]| |]] h'];
    cbn [snd trace]; apply drop_prefix_2.
Qed.

(** X16. How the handlers compose through the credential store (the store
    as the specification describes it).  After a POST to [/setup/] with a
    non-empty client id and client secret the viewer is configured: [/]
    shows the links page instead of redirecting, [/accounts] goes on to list
    the accounts with an authentication object that carries the escaped
    client id and secret, and a later [/setup/callback/] exchanges its code
    with an object that carries the same escaped pair. *)
Theorem setup_configures_the_viewer (lib : Library) (request : Request)
    (w : World) (c s : string) :
  method request = POST →
  form request !! "client_id" = Some c →
  form request !! "client_secret" = Some s →
  c ≠ "" →
  s ≠ "" →
  let w' := snd (setup lib request w) in
  FileSystem.is_configured (MONZO_HANDLER w') = true
  ∧ (∀ later,
       index later w'
       = (Ok (Render "index.html" {[ "links" := CLinks LINKS ]}), w'))
  ∧ (∀ lib' later,
       ∃ auth,
         calls_made (accounts lib' later) w'
         = [EvAuthentication auth; EvAccountFetch auth]
         ∧ Authentication.client_id auth = escape c
         ∧ Authentication.client_secret auth = escape s)
  ∧ (∀ lib' later code state,
       args later !! "code" = Some code →
       args later !! "state" = Some state →
       ∃ auth,
         calls_made (setup_callback lib' later) w'
         = [EvAuthentication auth; EvAuthenticate auth code state]
         ∧ Authentication.client_id auth = escape c
         ∧ Authentication.client_secret auth = escape s).
Proof.
  intros Hm Hc Hs Hcne Hsne.
  rewrite (setup_post_filled lib request w c s (post_is_not_GET _ Hm) Hc Hs Hcne Hsne).
  cbn [snd]. cbn zeta.
  assert (Hconf : FileSystem.is_configured
                    (FileSystem.set_client_details (escape c) (escape s)
                       (MONZO_HANDLER w)) = true).
  { unfold FileSystem.is_configured. cbn.
    rewrite !truthy_escape.
    apply truthy_true_iff in Hcne, Hsne. now rewrite Hcne, Hsne. }
  split; [exact Hconf|]. split; [|split].
  - intros later. unfold index. run_monad. cbn [MONZO_HANDLER].
    now rewrite Hconf.
  - intros lib' later. eexists. split.
    + apply accounts_calls_when_configured. exact Hconf.
    + split; reflexivity.
  - intros lib' later code state Hcode Hstate. eexists. split.
    + unfold calls_made.
      rewrite (setup_callback_world lib' later _ code state Hcode Hstate).
      cbn [snd trace]. apply drop_app_length.
    + split; reflexivity.
Qed.

Lemma setup_configures_the_viewer_witness :
  FileSystem.is_configured
    (MONZO_HANDLER (snd (setup friendly credentials_request fresh_world))) = true
  ∧ fst (index (get_with []) (snd (setup friendly credentials_request fresh_world)))
    = Ok (Render "index.html" {[ "links" := CLinks LINKS ]})
  ∧ fst (index (get_with []) fresh_world) = Ok (Redirect "/setup/").
Proof.
  destruct (setup_configures_the_viewer friendly credentials_request fresh_world
              "oauth2client_9" "mnzconf.s3cret")
    as (Hconf & Hindex & _);
    [reflexivity | vm_compute; reflexivity | vm_compute; reflexivity
    | discriminate | discriminate |].
  split; [exact Hconf|]. split; [|reflexivity].
  now rewrite (Hindex (get_with [])).
Defined.
